(** * ACCESS-CI MCP base server: JSON-RPC dispatch and HTTP endpoints

    A shallow embedding of
    [packages/xdmod-mcp-data/src/xdmod_mcp_data/base_server.py]:
    the JSON-RPC dispatcher [_handle_jsonrpc_message] and the aiohttp
    handlers [messages_handler] and [execute_tool] of
    [BaseAccessServer], with the Python values, exceptions and the
    session table they work on. *)

From Stdlib Require Import ZArith String Ascii List Bool Lia DecimalString.
From stdpp Require Import gmap strings list fin_maps.

Local Open Scope string_scope.
Local Open Scope Z_scope.
Local Set Warnings "-register-all".

(** ** Python values

    The values that flow through the server: what [json.loads] yields
    for a request body (None, bool, int, float, str, list, dict with
    string keys) and, for tool results, objects with attributes (the
    [TextContent] items of the MCP SDK).  A float is carried by its
    [repr]; no arithmetic is done on it.  A dict is an association
    list in insertion order, as [json.dumps] walks it.  The characters
    of a [string] stand for code points below 256. *)

Inductive value : Type :=
| VNone
| VBool (b : bool)
| VInt (z : Z)
| VFloat (repr : string)
| VStr (s : string)
| VList (l : list value)
| VDict (d : list (string * value))
| VObj (cls : string) (attrs : list (string * value)).

(** Values made of JSON data only (no objects). *)
Fixpoint is_json (v : value) : bool :=
  match v with
  | VList l => forallb is_json l
  | VDict d => forallb (fun kv => is_json (snd kv)) d
  | VObj _ _ => false
  | _ => true
  end.

(** ** Exceptions

    All of them are subclasses of [Exception]; [exn_str] is [str(e)]. *)

Inductive exn_class : Type :=
| JSONDecodeError
| AttributeError
| TypeError
| OtherException (name : string).

Record exn : Type := { exn_cls : exn_class; exn_str : string }.

Inductive res (A : Type) : Type :=
| Ok (a : A)
| Raise (e : exn).
Arguments Ok {A} a.
Arguments Raise {A} e.

(** ** Characters and numerals *)

Definition dquote : ascii := "034"%char.
Definition squote : ascii := "039"%char.
Definition backslash : ascii := "092"%char.
Definition newline : ascii := "010"%char.

Definition str1 (c : ascii) : string := String c EmptyString.

Definition hex_digit (n : nat) : ascii :=
  match n with
  | 0 => "0" | 1 => "1" | 2 => "2" | 3 => "3" | 4 => "4" | 5 => "5"
  | 6 => "6" | 7 => "7" | 8 => "8" | 9 => "9" | 10 => "a" | 11 => "b"
  | 12 => "c" | 13 => "d" | 14 => "e" | _ => "f"
  end%nat%char.

Definition hex2 (n : nat) : string :=
  String (hex_digit (n / 16)) (str1 (hex_digit (n mod 16))).

Definition int_repr (z : Z) : string := NilZero.string_of_int (Z.to_int z).

Fixpoint str_contains (c : ascii) (s : string) : bool :=
  match s with
  | EmptyString => false
  | String a r => Ascii.eqb a c || str_contains c r
  end.

Fixpoint str_concat_map (f : ascii -> string) (s : string) : string :=
  match s with
  | EmptyString => EmptyString
  | String a r => f a +:+ str_concat_map f r
  end.

Fixpoint join (sep : string) (l : list string) : string :=
  match l with
  | [] => EmptyString
  | [x] => x
  | x :: r => x +:+ sep +:+ join sep r
  end.

Fixpoint spaces (n : nat) : string :=
  match n with
  | O => EmptyString
  | S k => String " " (spaces k)
  end.

(** ** [str] and [repr] *)

(** [repr] of a str: single quotes unless the text has a single quote
    and no double quote; backslash, the quote, tab, newline and
    carriage return escaped; the other non-printable code points as
    [\xNN]. *)
Definition repr_char (quote : ascii) (c : ascii) : string :=
  let n := nat_of_ascii c in
  if Ascii.eqb c backslash then String backslash (str1 backslash)
  else if Ascii.eqb c quote then String backslash (str1 quote)
  else if Nat.eqb n 9 then String backslash "t"
  else if Nat.eqb n 10 then String backslash "n"
  else if Nat.eqb n 13 then String backslash "r"
  else if (Nat.ltb n 32 || (Nat.leb 127 n && Nat.leb n 160) || Nat.eqb n 173)%bool
       then String backslash ("x" +:+ hex2 n)
  else str1 c.

Definition repr_str (s : string) : string :=
  let quote :=
    if (str_contains squote s && negb (str_contains dquote s))%bool
    then dquote else squote in
  str1 quote +:+ str_concat_map (repr_char quote) s +:+ str1 quote.

Fixpoint py_repr (v : value) : string :=
  match v with
  | VNone => "None"
  | VBool true => "True"
  | VBool false => "False"
  | VInt z => int_repr z
  | VFloat r => r
  | VStr s => repr_str s
  | VList l =>
      "[" +:+ join ", " ((fix go (l : list value) : list string :=
                           match l with
                           | [] => []
                           | x :: r => py_repr x :: go r
                           end) l) +:+ "]"
  | VDict d =>
      "{" +:+ join ", " ((fix go (d : list (string * value)) : list string :=
                           match d with
                           | [] => []
                           | (k, x) :: r => (repr_str k +:+ ": " +:+ py_repr x) :: go r
                           end) d) +:+ "}"
  | VObj cls _ => "<" +:+ cls +:+ " object>"
  end.

(** [str(v)], as an f-string formats [v]: a str is itself, every other
    builtin goes through [repr]. *)
Definition py_str (v : value) : string :=
  match v with
  | VStr s => s
  | _ => py_repr v
  end.

(** The name of the type, as it appears in an [AttributeError] or a
    [TypeError] message. *)
Definition type_name (v : value) : string :=
  match v with
  | VNone => "NoneType"
  | VBool _ => "bool"
  | VInt _ => "int"
  | VFloat _ => "float"
  | VStr _ => "str"
  | VList _ => "list"
  | VDict _ => "dict"
  | VObj cls _ => cls
  end.

(** ** [json.dumps]

    [ensure_ascii] is on: everything outside [' '..'~'] is escaped. *)
Definition json_escape_char (c : ascii) : string :=
  let n := nat_of_ascii c in
  if Ascii.eqb c backslash then String backslash (str1 backslash)
  else if Ascii.eqb c dquote then String backslash (str1 dquote)
  else if Nat.eqb n 8 then String backslash "b"
  else if Nat.eqb n 12 then String backslash "f"
  else if Nat.eqb n 10 then String backslash "n"
  else if Nat.eqb n 13 then String backslash "r"
  else if Nat.eqb n 9 then String backslash "t"
  else if (Nat.ltb n 32 || Nat.ltb 126 n)%bool
       then String backslash ("u00" +:+ hex2 n)
  else str1 c.

Definition encode_basestring_ascii (s : string) : string :=
  str1 dquote +:+ str_concat_map json_escape_char s +:+ str1 dquote.

Definition float_json (r : string) : string :=
  if String.eqb r "nan" then "NaN"
  else if String.eqb r "inf" then "Infinity"
  else if String.eqb r "-inf" then "-Infinity"
  else r.

Definition not_serializable (v : value) : exn :=
  {| exn_cls := TypeError;
     exn_str := "Object of type " +:+ type_name v +:+ " is not JSON serializable" |}.

(** The line break before an item at nesting depth [level]; nothing
    when [indent] is None. *)
Definition newline_indent (indent : option nat) (level : nat) : string :=
  match indent with
  | Some n => String newline (spaces (n * level))
  | None => EmptyString
  end.

Definition item_separator (indent : option nat) (level : nat) : string :=
  match indent with
  | Some _ => "," +:+ newline_indent indent level
  | None => ", "
  end.

Fixpoint encode (indent : option nat) (level : nat) (o : value) {struct o}
  : res string :=
  match o with
  | VNone => Ok "null"
  | VBool true => Ok "true"
  | VBool false => Ok "false"
  | VInt z => Ok (int_repr z)
  | VFloat r => Ok (float_json r)
  | VStr s => Ok (encode_basestring_ascii s)
  | VList [] => Ok "[]"
  | VList l =>
      match (fix go (l : list value) : res (list string) :=
               match l with
               | [] => Ok []
               | x :: r =>
                   match encode indent (S level) x with
                   | Raise e => Raise e
                   | Ok s => match go r with
                             | Raise e => Raise e
                             | Ok ss => Ok (s :: ss)
                             end
                   end
               end) l with
      | Raise e => Raise e
      | Ok chunks =>
          Ok ("[" +:+ newline_indent indent (S level)
                  +:+ join (item_separator indent (S level)) chunks
                  +:+ newline_indent indent level +:+ "]")
      end
  | VDict [] => Ok "{}"
  | VDict d =>
      match (fix go (d : list (string * value)) : res (list string) :=
               match d with
               | [] => Ok []
               | (k, x) :: r =>
                   match encode indent (S level) x with
                   | Raise e => Raise e
                   | Ok s => match go r with
                             | Raise e => Raise e
                             | Ok ss => Ok ((encode_basestring_ascii k +:+ ": " +:+ s) :: ss)
                             end
                   end
               end) d with
      | Raise e => Raise e
      | Ok chunks =>
          Ok ("{" +:+ newline_indent indent (S level)
                  +:+ join (item_separator indent (S level)) chunks
                  +:+ newline_indent indent level +:+ "}")
      end
  | VObj _ _ => Raise (not_serializable o)
  end.

Definition json_dumps (obj : value) (indent : option nat) : res string :=
  encode indent 0 obj.

(** ** Lookups: [dict.get], [getattr], [hasattr], truth values *)

Fixpoint assoc (key : string) (d : list (string * value)) : option value :=
  match d with
  | [] => None
  | (k, v) :: r => if String.eqb k key then Some v else assoc key r
  end.

Definition no_attribute (o : value) (attr : string) : exn :=
  {| exn_cls := AttributeError;
     exn_str := "'" +:+ type_name o +:+ "' object has no attribute '" +:+ attr +:+ "'" |}.

(** [o.get(key, default)]: only a dict has the method. *)
Definition dict_get (d : list (string * value)) (key : string) (default : value) : value :=
  match assoc key d with
  | Some v => v
  | None => default
  end.

Definition py_get (o : value) (key : string) (default : value) : res value :=
  match o with
  | VDict d => Ok (dict_get d key default)
  | _ => Raise (no_attribute o "get")
  end.

(** [hasattr(o, attr)] and [o.attr] for the data attributes the server
    asks for ([type], [text]): the builtin values have neither. *)
Definition hasattr (o : value) (attr : string) : bool :=
  match o with
  | VObj _ attrs => match assoc attr attrs with Some _ => true | None => false end
  | _ => false
  end.

Definition getattr (o : value) (attr : string) : res value :=
  match o with
  | VObj _ attrs =>
      match assoc attr attrs with
      | Some v => Ok v
      | None => Raise (no_attribute o attr)
      end
  | _ => Raise (no_attribute o attr)
  end.

(** [v == s] for a str [s]. *)
Definition str_eq (v : value) (s : string) : bool :=
  match v with
  | VStr s' => String.eqb s' s
  | _ => false
  end.

Definition truthy (v : value) : bool :=
  match v with
  | VNone => false
  | VBool b => b
  | VInt z => negb (Z.eqb z 0)
  | VFloat r => negb (String.eqb r "0.0" || String.eqb r "-0.0")
  | VStr s => negb (String.eqb s "")
  | VList l => match l with [] => false | _ => true end
  | VDict d => match d with [] => false | _ => true end
  | VObj _ _ => true
  end.

(** ** Tools, sessions and the state of the server *)

Record Tool : Type := {
  name : string;
  description : value;
  inputSchema : value
}.

Record SSESession : Type := {
  session_id : string;
  queue : list value;
  initialized : bool
}.

(** What the server did, in order: awaited [request.json()], entered
    the dispatcher, awaited [handle_tool_call]. *)
Inductive event : Type :=
| EvRequestJson
| EvDispatch (message : value)
| EvToolCall (tool_name arguments : value).

(** Session objects live in [heap]; [_sessions] is the dict of the
    server, from session id to the object it holds.  A handler that
    has looked a session up works on the object itself. *)
Record world : Type := {
  heap : gmap nat SSESession;
  _sessions : gmap string nat;
  log : list event
}.

Definition tool_calls (l : list event) : list event :=
  List.filter (fun e => match e with EvToolCall _ _ => true | _ => false end) l.

(** ** State and exceptions *)

Definition M (A : Type) : Type := world -> res A * world.

Definition ret {A} (a : A) : M A := fun w => (Ok a, w).

Definition bind {A B} (c : M A) (k : A -> M B) : M B :=
  fun w => match c w with
           | (Ok a, w') => k a w'
           | (Raise e, w') => (Raise e, w')
           end.

Definition lift {A} (r : res A) : M A := fun w => (r, w).

(** [try: c except Exception as e: h e] *)
Definition try_except {A} (c : M A) (h : exn -> M A) : M A :=
  fun w => match c w with
           | (Ok a, w') => (Ok a, w')
           | (Raise e, w') => h e w'
           end.

Notation "'let*' x ':=' c 'in' k" := (bind c (fun x => k))
  (at level 10, x name, c at level 100, k at level 200).

Definition tell (e : event) : M unit :=
  fun w => (Ok tt, {| heap := heap w; _sessions := _sessions w; log := log w ++ [e] |}).

Definition update_session (f : SSESession -> SSESession) (session : nat) : M unit :=
  fun w => (Ok tt, {| heap := alter f session (heap w);
                      _sessions := _sessions w; log := log w |}).

(** [session.initialized = True] *)
Definition set_initialized (s : SSESession) : SSESession :=
  {| session_id := session_id s; queue := queue s; initialized := true |}.

(** [session.queue.put(item)] on an unbounded [asyncio.Queue] *)
Definition queue_put (item : value) (s : SSESession) : SSESession :=
  {| session_id := session_id s; queue := queue s ++ [item];
     initialized := initialized s |}.

(** [res] as a monad of its own, for the comprehension of [execute_tool]. *)
Fixpoint res_map {A B} (f : A -> res B) (l : list A) : res (list B) :=
  match l with
  | [] => Ok []
  | x :: r =>
      match f x with
      | Raise e => Raise e
      | Ok y => match res_map f r with
                | Raise e => Raise e
                | Ok ys => Ok (y :: ys)
                end
      end
  end.

(** ** HTTP requests and responses *)

(** [json] is what [await request.json()] gives for the body: the
    parsed value, or the exception it raises ([json.JSONDecodeError]
    for text that is not JSON). *)
Record Request : Type := {
  query_sessionId : option string;
  match_info_tool_name : string;
  content_type : string;
  json : res value
}.

Inductive payload : Type :=
| JsonBody (data : value)
| TextBody (text : string).

Record Response : Type := {
  status : Z;
  body : payload
}.

(** [web.json_response(data, status=status)] serializes [data] with
    [json.dumps] when the response is built. *)
Definition json_response (data : value) (status : Z) : M Response :=
  let* _ := lift (json_dumps data None) in
  ret {| status := status; body := JsonBody data |}.

(** ** The server *)

Section Server.

(** [self.server_name], [self.version], and the two abstract methods
    a concrete server supplies: [get_tools()] and
    [handle_tool_call(name, arguments)], which returns a value or
    raises. *)
Variable server_name : string.
Variable version : string.
Variable get_tools : list Tool.
Variable handle_tool_call : value -> value -> res value.

Definition call_tool (tool_name arguments : value) : M value :=
  let* _ := tell (EvToolCall tool_name arguments) in
  lift (handle_tool_call tool_name arguments).

(** [any(t.name == tool_name for t in tools)] *)
Definition tool_exists (tool_name : value) : bool :=
  existsb (fun t => str_eq tool_name (name t)) get_tools.

Definition tools_data : list value :=
  List.map (fun tool => VDict [("name", VStr (name tool));
                               ("description", description tool);
                               ("inputSchema", inputSchema tool)])
           get_tools.

Definition result_envelope (msg_id result : value) : value :=
  VDict [("jsonrpc", VStr "2.0"); ("id", msg_id); ("result", result)].

Definition error_envelope (msg_id : value) (code : Z) (message : string) : value :=
  VDict [("jsonrpc", VStr "2.0"); ("id", msg_id);
         ("error", VDict [("code", VInt code); ("message", VStr message)])].

Definition text_block (text : string) : value :=
  VDict [("type", VStr "text"); ("text", VStr text)].

(** The body of the [try] of [_handle_jsonrpc_message]. *)
Definition dispatch (session : nat) (method msg_id params : value)
  : M (option value) :=
  if str_eq method "initialize" then
    let* _ := update_session set_initialized session in
    ret (Some (result_envelope msg_id
                 (VDict [("protocolVersion", VStr "2024-11-05");
                         ("capabilities", VDict [("tools", VDict []);
                                                 ("resources", VDict [])]);
                         ("serverInfo", VDict [("name", VStr server_name);
                                               ("version", VStr version)])])))
  else if str_eq method "notifications/initialized" then
    ret None
  else if str_eq method "tools/list" then
    ret (Some (result_envelope msg_id (VDict [("tools", VList tools_data)])))
  else if str_eq method "tools/call" then
    let* tool_name := lift (py_get params "name" VNone) in
    let* arguments := lift (py_get params "arguments" (VDict [])) in
    if negb (tool_exists tool_name) then
      ret (Some (error_envelope msg_id (-32601)
                   ("Tool '" +:+ py_str tool_name +:+ "' not found")))
    else
      let* result := call_tool tool_name arguments in
      let* text := match result with
                   | VStr s => ret s
                   | _ => lift (json_dumps result (Some 2%nat))
                   end in
      ret (Some (result_envelope msg_id (VDict [("content", VList [text_block text])])))
  else if str_eq method "resources/list" then
    ret (Some (result_envelope msg_id (VDict [("resources", VList [])])))
  else if str_eq method "prompts/list" then
    ret (Some (error_envelope msg_id (-32601) "Method not found"))
  else
    ret (Some (error_envelope msg_id (-32601)
                 ("Method '" +:+ py_str method +:+ "' not found"))).

Definition _handle_jsonrpc_message (session : nat) (message : value)
  : M (option value) :=
  let* _ := tell (EvDispatch message) in
  let* method := lift (py_get message "method" VNone) in
  let* msg_id := lift (py_get message "id" VNone) in
  let* params := lift (py_get message "params" (VDict [])) in
  try_except (dispatch session method msg_id params)
             (fun e => ret (Some (error_envelope msg_id (-32603) (exn_str e)))).

Definition request_json (request : Request) : M value :=
  let* _ := tell EvRequestJson in
  lift (json request).

Definition error_body (message : string) : value :=
  VDict [("error", VStr message)].

(** [POST /messages] *)
Definition messages_handler (request : Request) : M Response :=
  fun w =>
    let session_id := query_sessionId request in
    match session_id with
    | None => json_response (error_body "Session not found") 404 w
    | Some sid =>
        match (if String.eqb sid "" then None else _sessions w !! sid) with
        | None => json_response (error_body "Session not found") 404 w
        | Some session =>
            try_except
              (let* data := request_json request in
               let* response := _handle_jsonrpc_message session data in
               let* _ := match response with
                         | Some r => if truthy r
                                     then update_session (queue_put r) session
                                     else ret tt
                         | None => ret tt
                         end in
               ret {| status := 202; body := TextBody "Accepted" |})
              (fun e =>
                 match exn_cls e with
                 | JSONDecodeError => json_response (error_body "Invalid JSON") 400
                 | _ => json_response (error_body (exn_str e)) 500
                 end) w
        end
    end.

(** [{"type": item.type, "text": item.text}] *)
Definition item_block (item : value) : res value :=
  match getattr item "type" with
  | Raise e => Raise e
  | Ok ty => match getattr item "text" with
             | Raise e => Raise e
             | Ok tx => Ok (VDict [("type", ty); ("text", tx)])
             end
  end.

(** The text of a result that is not a str: [json.dumps(result, indent=2)]. *)
Definition dumps_block (result : value) : res value :=
  match json_dumps result (Some 2%nat) with
  | Raise e => Raise e
  | Ok text => Ok (VList [text_block text])
  end.

(** The [content] that [execute_tool] builds from a tool result:
    the branch [isinstance(result, list) and result and
    hasattr(result[0], 'text')], then [isinstance(result, str)],
    then the rest. *)
Definition rest_content (result : value) : res value :=
  match result with
  | VList (first :: rest) =>
      if hasattr first "text" then
        match res_map item_block (first :: rest) with
        | Raise e => Raise e
        | Ok blocks => Ok (VList blocks)
        end
      else dumps_block result
  | VStr s => Ok (VList [text_block s])
  | _ => dumps_block result
  end.

(** [POST /tools/{tool_name}] *)
Definition execute_tool (request : Request) : M Response :=
  let tool_name := match_info_tool_name request in
  try_except
    (let* arguments :=
       if String.eqb (content_type request) "application/json" then
         let* data := request_json request in
         lift (py_get data "arguments" (VDict []))
       else ret (VDict []) in
     if negb (tool_exists (VStr tool_name)) then
       json_response (error_body ("Tool '" +:+ tool_name +:+ "' not found")) 404
     else
       let* result := call_tool (VStr tool_name) arguments in
       let* content := lift (rest_content result) in
       json_response (VDict [("content", content)]) 200)
    (fun e => json_response (error_body (exn_str e)) 500).

End Server.

(** ** A small server to run the definitions on *)

Module Demo.

Definition text_content (text : string) : value :=
  VObj "TextContent" [("type", VStr "text"); ("text", VStr text)].

Definition tools : list Tool :=
  [ {| name := "echo"; description := VStr "Return the arguments";
       inputSchema := VDict [("type", VStr "object")] |};
    {| name := "hello"; description := VStr "Greet";
       inputSchema := VDict [("type", VStr "object")] |};
    {| name := "boom"; description := VNone;
       inputSchema := VDict [("type", VStr "object")] |};
    {| name := "mcp"; description := VNone;
       inputSchema := VDict [("type", VStr "object")] |} ].

Definition failed : exn :=
  {| exn_cls := OtherException "RuntimeError"; exn_str := "backend down" |}.

(** [echo] returns its arguments, [hello] a str, [boom] raises and
    [mcp] returns a list of [TextContent], as the tools of the MCP
    SDK do. *)
Definition handle_tool_call (tool_name arguments : value) : res value :=
  if str_eq tool_name "echo" then Ok arguments
  else if str_eq tool_name "hello" then Ok (VStr "hello, world")
  else if str_eq tool_name "mcp" then Ok (VList [text_content "hi"])
  else Raise failed.

Definition session0 : SSESession :=
  {| session_id := "s-1"; queue := []; initialized := false |}.

Definition w0 : world :=
  {| heap := {[ 0%nat := session0 ]}; _sessions := {[ "s-1" := 0%nat ]}; log := [] |}.

Definition rpc_fields (msg_id : Z) (method : string) (params : value)
  : list (string * value) :=
  [("jsonrpc", VStr "2.0"); ("id", VInt msg_id);
   ("method", VStr method); ("params", params)].

Definition rpc (msg_id : Z) (method : string) (params : value) : value :=
  VDict (rpc_fields msg_id method params).

Definition post_message (sid : option string) (body : res value) : Request :=
  {| query_sessionId := sid; match_info_tool_name := "";
     content_type := "application/json"; json := body |}.

Definition post_tool (tool_name ctype : string) (body : res value) : Request :=
  {| query_sessionId := None; match_info_tool_name := tool_name;
     content_type := ctype; json := body |}.

Definition bad_json : exn :=
  {| exn_cls := JSONDecodeError;
     exn_str := "Expecting value: line 1 column 1 (char 0)" |}.

Definition bad_utf8 : exn :=
  {| exn_cls := OtherException "UnicodeDecodeError";
     exn_str := "'utf-8' codec can't decode byte 0xff in position 0: invalid start byte" |}.

Definition handle := _handle_jsonrpc_message "demo" "1.0" tools handle_tool_call.
Definition messages := messages_handler "demo" "1.0" tools handle_tool_call.
Definition execute := execute_tool tools handle_tool_call.

End Demo.

(** ** A second small server: two sessions, one with a backlog *)

Module Demo2.

Definition tools : list Tool :=
  [ {| name := "mixed"; description := VStr "A list that starts as TextContent";
       inputSchema := VDict [("type", VStr "object")] |} ].

Definition handle_tool_call (tool_name arguments : value) : res value :=
  if str_eq tool_name "mixed"
  then Ok (VList [Demo.text_content "a"; VStr "b"])
  else Raise Demo.failed.

Definition first_envelope : value := result_envelope (VInt 1) (VDict [("resources", VList [])]).
Definition second_envelope : value := error_envelope (VInt 2) (-32601) "Method not found".

Definition busy : SSESession :=
  {| session_id := "s-1"; queue := [first_envelope; second_envelope]; initialized := true |}.

Definition quiet : SSESession :=
  {| session_id := "s-2"; queue := []; initialized := false |}.

Definition w0 : world :=
  {| heap := {[ 0%nat := busy; 1%nat := quiet ]};
     _sessions := {[ "s-1" := 0%nat; "s-2" := 1%nat ]};
     log := [] |}.

End Demo2.

(** ** Reading envelopes and worlds *)

Definition log_event (e : event) (w : world) : world :=
  {| heap := heap w; _sessions := _sessions w; log := log w ++ [e] |}.

(** The [code] of the [error] member of an envelope, when it has one. *)
Definition error_code (env : value) : option Z :=
  match env with
  | VDict d =>
      match assoc "error" d with
      | Some (VDict e) => match assoc "code" e with
                          | Some (VInt c) => Some c
                          | _ => None
                          end
      | _ => None
      end
  | _ => None
  end.

Definition well_formed_error (err : value) : bool :=
  match err with
  | VDict e =>
      match assoc "code" e, assoc "message" e with
      | Some (VInt _), Some (VStr _) => true
      | _, _ => false
      end
  | _ => false
  end.

(** [jsonrpc] is "2.0" and exactly one of [result] and [error] is
    there, the error with an int code and a str message. *)
Definition well_formed_envelope (env : value) : bool :=
  match env with
  | VDict d =>
      str_eq (dict_get d "jsonrpc" VNone) "2.0"
      && match assoc "result" d, assoc "error" d with
         | Some _, None => true
         | None, Some err => well_formed_error err
         | _, _ => false
         end
  | _ => false
  end.

(** The [content] of a JSON-RPC result envelope and of a REST response. *)
Definition rpc_content (env : value) : option value :=
  match env with
  | VDict d => match assoc "result" d with
               | Some (VDict r) => assoc "content" r
               | _ => None
               end
  | _ => None
  end.

Definition http_content (r : Response) : option value :=
  match body r with
  | JsonBody (VDict d) => assoc "content" d
  | _ => None
  end.

(** The text block of the specification: a str as it is, any other
    value through [json.dumps(result, indent=2)]. *)
Definition result_text (result : value) : res string :=
  match result with
  | VStr s => Ok s
  | _ => json_dumps result (Some 2%nat)
  end.

(** [isinstance(result, list) and result and hasattr(result[0], 'text')] *)
Definition is_text_content_list (result : value) : bool :=
  match result with
  | VList (first :: _) => hasattr first "text"
  | _ => false
  end.

(** [block] is [{"type": item.type, "text": item.text}] for an [item]
    that has both attributes. *)
Definition block_of (item block : value) : Prop :=
  exists cls attrs ty tx,
    item = VObj cls attrs
    /\ assoc "type" attrs = Some ty
    /\ assoc "text" attrs = Some tx
    /\ block = VDict [("type", ty); ("text", tx)].

(** Where the arguments of [execute_tool] come from: the [arguments]
    member of a JSON object sent as [application/json], or the empty
    dict for any other content type. *)
Definition rest_arguments (request : Request) (arguments : value) : Prop :=
  (content_type request = "application/json"
   /\ exists b, json request = Ok (VDict b)
                /\ dict_get b "arguments" (VDict []) = arguments)
  \/ (content_type request <> "application/json" /\ arguments = VDict []).

(** The shapes an envelope of the dispatcher can have. *)
Inductive envelope_for (msg_id : value) : value -> Prop :=
| env_result (result : value) :
    envelope_for msg_id (result_envelope msg_id result)
| env_error (code : Z) (message : string) :
    code = -32601 \/ code = -32603 ->
    envelope_for msg_id (error_envelope msg_id code message).

(** What a run may do to the state: the session table stays, the
    objects stay but for the [initialized] flag of [session], and the
    log grows. *)
Definition touches_only_flag (session : nat) (w w' : world) : Prop :=
  _sessions w' = _sessions w
  /\ (heap w' = heap w \/ heap w' = alter set_initialized session (heap w))
  /\ exists l, log w' = (log w ++ l)%list.

(** ** The other endpoints and the choice of the transport *)

(** [try: c finally: f]: [f] runs either way, and what [c] raised is
    raised again. *)
Definition try_finally {A} (c : M A) (f : M unit) : M A :=
  fun w => match c w with
           | (r, w') => match f w' with
                        | (Ok _, w'') => (r, w'')
                        | (Raise e, w'') => (Raise e, w'')
                        end
           end.

(** The three things [sse_handler] writes to its stream. *)
Definition endpoint_event (session_id : string) : string :=
  "event: endpoint" +:+ str1 newline
  +:+ "data: /messages?sessionId=" +:+ session_id +:+ str1 newline +:+ str1 newline.

Definition message_event (text : string) : string :=
  "event: message" +:+ str1 newline
  +:+ "data: " +:+ text +:+ str1 newline +:+ str1 newline.

Definition keepalive : string :=
  ": keepalive" +:+ str1 newline +:+ str1 newline.

(** [session = SSESession(session_id); self._sessions[session_id] = session]:
    a new object, with an empty queue and the flag down, under a
    location no object has. *)
Definition sse_connect (session_id : string) : M nat :=
  fun w =>
    let session := fresh (dom (heap w)) in
    (Ok session,
     {| heap := <[session := {| session_id := session_id; queue := [];
                                initialized := false |}]> (heap w);
        _sessions := <[session_id := session]> (_sessions w);
        log := log w |}).

(** [session.queue.get()] once the wait is over: the head leaves the queue. *)
Definition queue_get (s : SSESession) : SSESession :=
  {| session_id := session_id s; queue := tail (queue s);
     initialized := initialized s |}.

(** One turn of the loop of [sse_handler], when the wait of
    [asyncio.wait_for(session.queue.get(), timeout=30)] is over: with
    an item in the queue the item is taken and written as a [message]
    event, [json.dumps] raising if it cannot be serialized; with an
    empty queue the wait can only have timed out, and the keepalive
    comment is written. *)
Definition sse_iteration (session : nat) : M string :=
  fun w =>
    match queue <$> heap w !! session with
    | Some (message :: _) =>
        let w' := {| heap := alter queue_get session (heap w);
                     _sessions := _sessions w; log := log w |} in
        match json_dumps message None with
        | Ok text => (Ok (message_event text), w')
        | Raise e => (Raise e, w')
        end
    | _ => (Ok keepalive, w)
    end.

(** [if session_id in self._sessions: del self._sessions[session_id]] *)
Definition sse_cleanup (session_id : string) : M unit :=
  fun w =>
    match _sessions w !! session_id with
    | Some _ => (Ok tt, {| heap := heap w;
                           _sessions := delete session_id (_sessions w);
                           log := log w |})
    | None => (Ok tt, w)
    end.

(** [turns] turns of the loop, then the client goes away (the
    [CancelledError] or [ConnectionResetError] that ends the loop). *)
Fixpoint sse_loop (turns : nat) (session : nat) : M (list string) :=
  match turns with
  | O => ret []
  | S k =>
      let* chunk := sse_iteration session in
      let* chunks := sse_loop k session in
      ret (chunk :: chunks)
  end.

(** [GET /sse] for a connection that lasts [turns] turns, with the id
    [uuid.uuid4()] gave: what was written to the stream.  [prepared]
    is how [await response.prepare(request)] ends and [written] how
    the write of the [endpoint] event ends; both come after the
    session is registered and before the [try], so when one of them
    raises the handler raises with it and the [finally] clause is
    never reached. *)
Definition sse_handler (session_id : string) (prepared written : res unit)
           (turns : nat) : M (list string) :=
  let* session := sse_connect session_id in
  let* _ := lift prepared in
  let* _ := lift written in
  let* chunks := try_finally (sse_loop turns session) (sse_cleanup session_id) in
  ret (endpoint_event session_id :: chunks).

(** [GET /tools] *)
Definition list_tools (get_tools : list Tool) (request : Request) : M Response :=
  json_response (VDict [("tools", VList (tools_data get_tools))]) 200.

(** What [start] starts. *)
Inductive transport : Type :=
| HttpServer (port : Z)
| StdioServer.

(** [start]: [http_port or (int(os.environ['PORT']) if
    os.environ.get('PORT') else None)], then HTTP when the port is
    truthy and stdio otherwise.  [py_int] is [int] on a str, which
    raises [ValueError] on text that is no number; [environ_PORT] is
    the variable, when it is set. *)
Definition start (py_int : string -> res Z) (environ_PORT : option string)
           (http_port : option Z) : res transport :=
  let from_environ :=
    match environ_PORT with
    | Some text => if String.eqb text "" then Ok None
                   else match py_int text with
                        | Ok n => Ok (Some n)
                        | Raise e => Raise e
                        end
    | None => Ok None
    end in
  let port :=
    match http_port with
    | Some p => if Z.eqb p 0 then from_environ else Ok (Some p)
    | None => from_environ
    end in
  match port with
  | Raise e => Raise e
  | Ok (Some p) => if Z.eqb p 0 then Ok StdioServer else Ok (HttpServer p)
  | Ok None => Ok StdioServer
  end.

(** The tools whose description and schema are JSON data. *)
Definition tools_are_json (tools : list Tool) : bool :=
  forallb (fun t => is_json (description t) && is_json (inputSchema t)) tools.


(** Induction on values that goes through the items of a list and the
    members of a dict. *)
Section ValueInduction.

Variable P : value -> Prop.
Hypothesis HNone : P VNone.
Hypothesis HBool : forall b, P (VBool b).
Hypothesis HInt : forall z, P (VInt z).
Hypothesis HFloat : forall r, P (VFloat r).
Hypothesis HStr : forall s, P (VStr s).
Hypothesis HList : forall l, Forall P l -> P (VList l).
Hypothesis HDict : forall d, Forall (fun kv => P (snd kv)) d -> P (VDict d).
Hypothesis HObj : forall cls attrs, P (VObj cls attrs).

Fixpoint value_nested_ind (v : value) : P v :=
  match v with
  | VNone => HNone
  | VBool b => HBool b
  | VInt z => HInt z
  | VFloat r => HFloat r
  | VStr s => HStr s
  | VList l =>
      HList l ((fix go (l : list value) : Forall P l :=
                  match l with
                  | [] => @List.Forall_nil _ P
                  | x :: r => @List.Forall_cons _ P x r (value_nested_ind x) (go r)
                  end) l)
  | VDict d =>
      HDict d ((fix go (d : list (string * value)) : Forall (fun kv => P (snd kv)) d :=
                  match d with
                  | [] => @List.Forall_nil _ _
                  | kv :: r => @List.Forall_cons _ _ kv r (value_nested_ind (snd kv)) (go r)
                  end) d)
  | VObj cls attrs => HObj cls attrs
  end.

End ValueInduction.

(** One member of a dict, as [json.dumps] writes it. *)
Definition encode_member (indent : option nat) (level : nat) (kv : string * value)
  : res string :=
  match encode indent level (snd kv) with
  | Raise e => Raise e
  | Ok s => Ok (encode_basestring_ascii (fst kv) +:+ ": " +:+ s)
  end.

(** * Properties *)

Example dumps_indent2 :
  json_dumps (VDict [("a", VList [VInt 1; VStr "x"]); ("b", VDict [])]) (Some 2%nat)
  = Ok ("{" +:+ str1 newline +:+ "  " +:+ str1 dquote +:+ "a" +:+ str1 dquote +:+ ": ["
        +:+ str1 newline +:+ "    1," +:+ str1 newline +:+ "    "
        +:+ str1 dquote +:+ "x" +:+ str1 dquote +:+ str1 newline +:+ "  ],"
        +:+ str1 newline +:+ "  " +:+ str1 dquote +:+ "b" +:+ str1 dquote +:+ ": {}"
        +:+ str1 newline +:+ "}").
Proof. reflexivity. Qed.

Example str_of_list : py_str (VList [VStr "a"; VNone; VInt (-3)]) = "['a', None, -3]".
Proof. reflexivity. Qed.

Example demo_missing_tool :
  fst (Demo.handle 0%nat
         (Demo.rpc 2 "tools/call" (VDict [("name", VStr "missing_tool"); ("arguments", VDict [])]))
         Demo.w0)
  = Ok (Some (VDict [("jsonrpc", VStr "2.0"); ("id", VInt 2);
                     ("error", VDict [("code", VInt (-32601));
                                      ("message", VStr "Tool 'missing_tool' not found")])])).
Proof. reflexivity. Qed.

Example demo_messages_status :
  status <$> (match fst (Demo.messages (Demo.post_message (Some "s-1")
                 (Ok (Demo.rpc 1 "tools/list" (VDict [])))) Demo.w0) with
              | Ok r => Some r | Raise _ => None end) = Some 202.
Proof. vm_compute. reflexivity. Qed.

(** Unfold the monad of the handlers down to pairs of result and world. *)
Ltac run :=
  unfold call_tool, json_response, request_json in *;
  unfold bind, ret, lift, try_except, tell, update_session in *;
  cbn beta iota in *.

Lemma str_eq_true (v : value) (s : string) : str_eq v s = true -> v = VStr s.
Proof.
  destruct v; try discriminate. cbn. intros H. apply String.eqb_eq in H. now subst.
Qed.

Lemma tool_calls_app (l1 l2 : list event) :
  tool_calls (l1 ++ l2) = (tool_calls l1 ++ tool_calls l2)%list.
Proof. unfold tool_calls. apply List.filter_app. Qed.

Section Dispatcher.

Variable server_name : string.
Variable version : string.
Variable get_tools : list Tool.
Variable handle_tool_call : value -> value -> res value.

Abbreviation handle := (_handle_jsonrpc_message server_name version get_tools handle_tool_call).
Abbreviation run_dispatch := (dispatch server_name version get_tools handle_tool_call).

Lemma handle_dict (session : nat) (d : list (string * value)) (w : world) :
  handle session (VDict d) w =
  try_except
    (run_dispatch session (dict_get d "method" VNone) (dict_get d "id" VNone)
                  (dict_get d "params" (VDict [])))
    (fun e => ret (Some (error_envelope (dict_get d "id" VNone) (-32603) (exn_str e))))
    (log_event (EvDispatch (VDict d)) w).
Proof. reflexivity. Qed.

Lemma handle_not_dict (session : nat) (message : value) (w : world) :
  (forall d, message <> VDict d) ->
  handle session message w
  = (Raise (no_attribute message "get"), log_event (EvDispatch message) w).
Proof.
  intros Hnd. destruct message; try reflexivity. now destruct (Hnd d).
Qed.

(** No name of a tool equals None. *)
Lemma tool_exists_none : tool_exists get_tools VNone = false.
Proof.
  unfold tool_exists. induction get_tools as [|t ts IH]; [reflexivity|exact IH].
Qed.

(** What the [try] block leaves behind: an envelope for the id of
    the request when it returns one, the session table as it was,
    and the session objects untouched but for the [initialized]
    flag of the session at hand. *)
Lemma dispatch_ok (session : nat) (method msg_id params : value) (w w' : world)
      (r : option value) :
  run_dispatch session method msg_id params w = (Ok r, w') ->
  (r = None <-> str_eq method "notifications/initialized" = true
                /\ str_eq method "initialize" = false)
  /\ (forall env, r = Some env ->
        envelope_for msg_id env /\ error_code env <> Some (-32603)).
Proof.
  unfold dispatch.
  destruct (str_eq method "initialize") eqn:Hi.
  { run. intros [= <- <-]. split.
    - split; [discriminate | intros [_ ?]; discriminate].
    - intros env [= <-]. split; [constructor | discriminate]. }
  destruct (str_eq method "notifications/initialized") eqn:Hn.
  { run. intros [= <- <-]. split; [tauto|discriminate]. }
  assert (Hnone : forall A (x : A),
             Some x = None <-> false = true /\ false = false)
    by (intros; split; [discriminate | intros [? _]; discriminate]).
  destruct (str_eq method "tools/list").
  { run. intros [= <- <-]. split; [apply Hnone|].
    intros env [= <-]. split; [constructor | discriminate]. }
  destruct (str_eq method "tools/call").
  { run. destruct (py_get params "name" VNone) as [tool_name|e]; [|discriminate].
    destruct (py_get params "arguments" (VDict [])) as [arguments|e]; [|discriminate].
    destruct (tool_exists get_tools tool_name); cbn [negb].
    - destruct (handle_tool_call tool_name arguments) as [result|e]; [|discriminate].
      assert (Hgen : forall (t : res string) (w1 : world),
                 match t with
                 | Ok a => (Ok (Some (result_envelope msg_id
                               (VDict [("content", VList [text_block a])]))), w1)
                 | Raise e => (Raise e, w1)
                 end = (Ok r, w') ->
                 (r = None <-> false = true /\ false = false)
                 /\ (forall env, r = Some env ->
                       envelope_for msg_id env /\ error_code env <> Some (-32603))).
      { intros [a|e] w1; [|discriminate]. intros [= <- <-]. split; [apply Hnone|].
        intros env [= <-]. split; [constructor | discriminate]. }
      destruct result;
        first [ apply (Hgen (json_dumps _ (Some 2%nat))) | apply (Hgen (Ok _)) ].
    - intros [= <- <-]. split; [apply Hnone|].
      intros env [= <-]. split; [constructor; now left | discriminate]. }
  destruct (str_eq method "resources/list").
  { run. intros [= <- <-]. split; [apply Hnone|].
    intros env [= <-]. split; [constructor | discriminate]. }
  destruct (str_eq method "prompts/list").
  { run. intros [= <- <-]. split; [apply Hnone|].
    intros env [= <-]. split; [constructor; now left | discriminate]. }
  run. intros [= <- <-]. split; [apply Hnone|].
  intros env [= <-]. split; [constructor; now left | discriminate].
Qed.

Lemma envelope_for_well_formed (msg_id env : value) :
  envelope_for msg_id env -> well_formed_envelope env = true.
Proof. intros [result | code message _]; reflexivity. Qed.

Lemma envelope_for_id (msg_id env : value) :
  envelope_for msg_id env -> exists e, env = VDict e /\ assoc "id" e = Some msg_id.
Proof. intros [result | code message _]; eexists; split; reflexivity. Qed.

Lemma envelope_for_code (msg_id env : value) :
  envelope_for msg_id env ->
  error_code env = None \/ error_code env = Some (-32601) \/ error_code env = Some (-32603).
Proof.
  intros [result | code message [-> | ->]]; cbn; auto.
Qed.

Lemma envelope_for_kind (msg_id env : value) :
  envelope_for msg_id env ->
  exists e,
    env = VDict e
    /\ ((exists result, assoc "result" e = Some result /\ assoc "error" e = None)
        \/ (assoc "result" e = None
            /\ (error_code env = Some (-32601) \/ error_code env = Some (-32603)))).
Proof.
  intros [result | code message [-> | ->]]; eexists; (split; [reflexivity|]); cbn; eauto.
Qed.

(** On a dict the dispatcher returns: nothing for the notification,
    an envelope for the id of the request otherwise. *)
Lemma handle_returns (session : nat) (d : list (string * value)) (w : world) :
  exists r w',
    handle session (VDict d) w = (Ok r, w')
    /\ (r = None -> str_eq (dict_get d "method" VNone) "notifications/initialized" = true)
    /\ (forall env, r = Some env -> envelope_for (dict_get d "id" VNone) env).
Proof.
  rewrite handle_dict. unfold try_except.
  destruct (run_dispatch session _ _ _ _) as [[r|e] w1] eqn:Hd.
  - exists r, w1. split; [reflexivity|].
    destruct (dispatch_ok _ _ _ _ _ _ _ Hd) as [Hnone Henv]. split.
    + intros Hr. now apply Hnone in Hr.
    + intros env Hr. now apply Henv.
  - eexists _, w1. split; [reflexivity|]. split; [discriminate|].
    intros env [= <-]. constructor. now right.
Qed.

(** C1: on every request object the dispatcher returns and does
    not raise; a failure inside the [try] block, such as a tool
    whose [handle_tool_call] raises during [tools/call], becomes
    the envelope with the id of the request and the error of code
    -32603 and message [str(e)], written out here member by
    member; on [notifications/initialized] it returns None. *)
Theorem dispatcher_never_throws (session : nat) (d : list (string * value)) (w : world) :
  let method := dict_get d "method" VNone in
  let msg_id := dict_get d "id" VNone in
  let params := dict_get d "params" (VDict []) in
  let w1 := log_event (EvDispatch (VDict d)) w in
  (exists r w', handle session (VDict d) w = (Ok r, w'))
  /\ (forall e w',
        run_dispatch session method msg_id params w1 = (Raise e, w') ->
        handle session (VDict d) w
        = (Ok (Some (VDict [("jsonrpc", VStr "2.0"); ("id", msg_id);
                            ("error", VDict [("code", VInt (-32603));
                                             ("message", VStr (exn_str e))])])), w'))
  /\ (forall p e,
        str_eq method "tools/call" = true ->
        params = VDict p ->
        tool_exists get_tools (dict_get p "name" VNone) = true ->
        handle_tool_call (dict_get p "name" VNone)
                         (dict_get p "arguments" (VDict [])) = Raise e ->
        handle session (VDict d) w
        = (Ok (Some (VDict [("jsonrpc", VStr "2.0"); ("id", msg_id);
                            ("error", VDict [("code", VInt (-32603));
                                             ("message", VStr (exn_str e))])])),
           log_event (EvToolCall (dict_get p "name" VNone)
                                 (dict_get p "arguments" (VDict []))) w1))
  /\ (str_eq method "notifications/initialized" = true ->
        handle session (VDict d) w = (Ok None, w1)).
Proof.
  intros method msg_id params w1. repeat split.
  - destruct (handle_returns session d w) as (r & w' & H & _). eauto.
  - intros e w' Hd. rewrite handle_dict. unfold try_except.
    fold method msg_id params w1. now rewrite Hd.
  - intros p e Hm Hp Hex Hcall. rewrite handle_dict.
    fold method msg_id params w1. apply str_eq_true in Hm.
    rewrite Hm, Hp. unfold dispatch, try_except. cbn [str_eq String.eqb Ascii.eqb Bool.eqb].
    run. cbn [py_get]. rewrite Hex. cbn [negb]. now rewrite Hcall.
  - intros Hm. rewrite handle_dict.
    fold method msg_id params w1. apply str_eq_true in Hm.
    rewrite Hm. reflexivity.
Qed.

(** C2: a [tools/call] whose [params.name] equals the name of no
    tool gets the error envelope -32601 "Tool '<name>' not found",
    and [handle_tool_call] is not awaited: the log gains the entry
    of the dispatcher and nothing else. *)
Theorem unknown_tool_not_invoked (session : nat) (d p : list (string * value)) (w : world) :
  is_json (VDict d) = true ->
  str_eq (dict_get d "method" VNone) "tools/call" = true ->
  dict_get d "params" (VDict []) = VDict p ->
  tool_exists get_tools (dict_get p "name" VNone) = false ->
  exists w',
    handle session (VDict d) w
    = (Ok (Some (VDict [("jsonrpc", VStr "2.0"); ("id", dict_get d "id" VNone);
                        ("error",
                         VDict [("code", VInt (-32601));
                                ("message",
                                 VStr ("Tool '" +:+ py_str (dict_get p "name" VNone)
                                       +:+ "' not found"))])])), w')
    /\ w' = log_event (EvDispatch (VDict d)) w
    /\ tool_calls (log w') = tool_calls (log w).
Proof.
  intros _ Hm Hp Hex. eexists. split; [|split; [reflexivity|]].
  - rewrite handle_dict. apply str_eq_true in Hm.
    rewrite Hm, Hp. unfold dispatch, try_except. cbn [str_eq String.eqb Ascii.eqb Bool.eqb].
    run. cbn [py_get]. rewrite Hex. reflexivity.
  - cbn [log_event log]. rewrite tool_calls_app. cbn. now rewrite List.app_nil_r.
Qed.

(** C5: an envelope the dispatcher returns has [jsonrpc] equal to
    "2.0" and exactly one of [result] and [error], the error with an
    int code and a str message; for every message and every state. *)
Theorem envelope_well_formed (session : nat) (message env : value) (w w' : world) :
  handle session message w = (Ok (Some env), w') ->
  well_formed_envelope env = true.
Proof.
  intros H.
  assert (Hd : exists d, message = VDict d).
  { destruct message; try (rewrite handle_not_dict in H by discriminate; discriminate).
    eauto. }
  destruct Hd as [d ->].
  destruct (handle_returns session d w) as (r & w2 & Hr & _ & Henv).
  rewrite Hr in H. injection H as -> ->.
  eapply envelope_for_well_formed, Henv. reflexivity.
Qed.

(** C6: for every request object whose method is not
    [notifications/initialized] the dispatcher returns an envelope,
    and its [id] is the [id] of the request as it came (None when
    the request has none). *)
Theorem response_id_round_trip (session : nat) (d : list (string * value)) (w : world) :
  str_eq (dict_get d "method" VNone) "notifications/initialized" = false ->
  exists env e w',
    handle session (VDict d) w = (Ok (Some env), w')
    /\ env = VDict e
    /\ assoc "id" e = Some (dict_get d "id" VNone).
Proof.
  intros Hn.
  destruct (handle_returns session d w) as (r & w' & Hr & Hnone & Henv).
  destruct r as [env|].
  - destruct (envelope_for_id _ _ (Henv env eq_refl)) as (e & -> & Hid).
    exists (VDict e), e, w'. auto.
  - rewrite Hnone in Hn by reflexivity. discriminate.
Qed.

(** C10: a [tools/call] whose [params] has no [name] is answered
    with the error of code -32601 and message "Tool 'None' not
    found", written out here member by member; and no envelope of
    the dispatcher carries the code -32602: an envelope has either a
    [result] and no [error], or no [result] and an [error] whose
    code is -32601 or -32603. *)
Theorem missing_name_is_tool_not_found :
  (forall (session : nat) (d p : list (string * value)) (w : world),
      is_json (VDict d) = true ->
      str_eq (dict_get d "method" VNone) "tools/call" = true ->
      dict_get d "params" (VDict []) = VDict p ->
      assoc "name" p = None ->
      handle session (VDict d) w
      = (Ok (Some (VDict [("jsonrpc", VStr "2.0"); ("id", dict_get d "id" VNone);
                          ("error", VDict [("code", VInt (-32601));
                                           ("message", VStr "Tool 'None' not found")])])),
         log_event (EvDispatch (VDict d)) w))
  /\ (forall (session : nat) (message env : value) (w w' : world),
        handle session message w = (Ok (Some env), w') ->
        error_code env <> Some (-32602)
        /\ exists e,
            env = VDict e
            /\ ((exists result, assoc "result" e = Some result /\ assoc "error" e = None)
                \/ (assoc "result" e = None
                    /\ (error_code env = Some (-32601)
                        \/ error_code env = Some (-32603))))).
Proof.
  split.
  - intros session d p w _ Hm Hp Hname. rewrite handle_dict. apply str_eq_true in Hm.
    rewrite Hm, Hp. unfold dispatch, try_except. cbn [str_eq String.eqb Ascii.eqb Bool.eqb].
    assert (Hn : dict_get p "name" VNone = VNone)
      by (unfold dict_get; now rewrite Hname).
    run. cbn [py_get]. rewrite Hn, tool_exists_none. reflexivity.
  - intros session message env w w' H.
    assert (Hd : exists d, message = VDict d).
    { destruct message; try (rewrite handle_not_dict in H by discriminate; discriminate).
      eauto. }
    destruct Hd as [d ->].
    destruct (handle_returns session d w) as (r & w2 & Hr & _ & Henv).
    rewrite Hr in H. injection H as -> ->.
    destruct (envelope_for_kind _ _ (Henv env eq_refl))
      as (e & -> & [(result & Hres & Herr) | (Hres & [Hc | Hc])]).
    + split; [|eauto 10]. unfold error_code. now rewrite Herr.
    + split; [rewrite Hc; discriminate | eauto 10].
    + split; [rewrite Hc; discriminate | eauto 10].
Qed.

End Dispatcher.

Section Http.

Variable server_name : string.
Variable version : string.
Variable get_tools : list Tool.
Variable handle_tool_call : value -> value -> res value.

Abbreviation handle := (_handle_jsonrpc_message server_name version get_tools handle_tool_call).
Abbreviation run_dispatch := (dispatch server_name version get_tools handle_tool_call).
Abbreviation messages := (messages_handler server_name version get_tools handle_tool_call).
Abbreviation execute := (execute_tool get_tools handle_tool_call).

Ltac same_state :=
  intros [= <- <-]; cbn [heap _sessions log];
  (split; [reflexivity | split; [auto | eauto using app_nil_r]]).

Lemma dispatch_state (session : nat) (method msg_id params : value) (w w' : world)
      (r : res (option value)) :
  run_dispatch session method msg_id params w = (r, w') ->
  touches_only_flag session w w'.
Proof.
  unfold dispatch, touches_only_flag.
  destruct (str_eq method "initialize"); [run; same_state|].
  destruct (str_eq method "notifications/initialized"); [run; same_state|].
  destruct (str_eq method "tools/list"); [run; same_state|].
  destruct (str_eq method "tools/call").
  { run. destruct (py_get params "name" VNone) as [tool_name|e]; [|same_state].
    destruct (py_get params "arguments" (VDict [])) as [arguments|e]; [|same_state].
    destruct (tool_exists get_tools tool_name); cbn [negb]; [|same_state].
    destruct (handle_tool_call tool_name arguments) as [result|e]; [|same_state].
    destruct result;
      try (destruct (json_dumps _ (Some 2%nat)) as [text|e]); same_state. }
  destruct (str_eq method "resources/list"); [run; same_state|].
  destruct (str_eq method "prompts/list"); run; same_state.
Qed.

Lemma handle_state (session : nat) (message : value) (w w' : world)
      (r : res (option value)) :
  handle session message w = (r, w') ->
  _sessions w' = _sessions w
  /\ (heap w' = heap w \/ heap w' = alter set_initialized session (heap w))
  /\ exists l, log w' = (log w ++ EvDispatch message :: l)%list.
Proof.
  destruct message;
    try (rewrite handle_not_dict by discriminate; intros [= <- <-];
         cbn [heap _sessions log log_event]; eauto).
  rewrite handle_dict. unfold try_except.
  destruct (run_dispatch session _ _ _ _) as [[r1|e] w1] eqn:Hd;
    apply dispatch_state in Hd; destruct Hd as (Hs & Hh & l & Hl);
    cbn [heap _sessions log log_event] in *; unfold ret;
    intros [= <- <-]; (split; [exact Hs | split; [exact Hh|]]);
    exists l; rewrite Hl; now rewrite <- app_assoc.
Qed.

(** The flag aside, the session object is as it was. *)
Lemma flag_keeps_queue (session : nat) (h h' : gmap nat SSESession) (s : SSESession) :
  h' = h \/ h' = alter set_initialized session h ->
  h !! session = Some s ->
  exists s', h' !! session = Some s' /\ queue s' = queue s.
Proof.
  intros [-> | ->] Hs.
  - eauto.
  - rewrite lookup_alter_eq, Hs. cbn. eauto.
Qed.

Lemma envelope_truthy (msg_id env : value) :
  envelope_for msg_id env -> truthy env = true.
Proof. intros [result | code message _]; reflexivity. Qed.

(** C7: a POST to /messages for a live session with a body that
    parses is handed to the dispatcher; when the dispatcher
    returns, the answer to the POST is 202, and the queue of the
    session is the old one followed by the envelope, or the old
    one when the dispatcher returned None. *)
Theorem messages_accepted (request : Request) (w w1 : world) (sid : string)
        (session : nat) (s : SSESession) (data : value) (r : option value) :
  query_sessionId request = Some sid ->
  sid <> "" ->
  _sessions w !! sid = Some session ->
  heap w !! session = Some s ->
  json request = Ok data ->
  handle session data (log_event EvRequestJson w) = (Ok r, w1) ->
  exists w2 s2,
    messages request w = (Ok {| status := 202; body := TextBody "Accepted" |}, w2)
    /\ _sessions w2 = _sessions w
    /\ heap w2 !! session = Some s2
    /\ queue s2 = (queue s ++ match r with Some env => [env] | None => [] end)%list
    /\ In (EvDispatch data) (log w2).
Proof.
  intros Hq Hne Hsid Hs Hjson Hrun.
  destruct (handle_state _ _ _ _ _ Hrun) as (Ht & Hh & l & Hl).
  cbn [heap _sessions log log_event] in Ht, Hh, Hl.
  destruct (flag_keeps_queue session _ _ s Hh Hs) as (s1 & Hs1 & Hq1).
  assert (Hdisp : In (EvDispatch data) (log w1)).
  { rewrite Hl. apply in_or_app. right. now left. }
  assert (Htruthy : forall env, r = Some env -> truthy env = true).
  { intros env ->. destruct data;
      try (rewrite handle_not_dict in Hrun by discriminate; discriminate).
    destruct (handle_returns server_name version get_tools handle_tool_call
                session d (log_event EvRequestJson w)) as (r' & w' & Hr & _ & Henv).
    rewrite Hr in Hrun. injection Hrun as -> ->.
    eapply envelope_truthy, Henv. reflexivity. }
  unfold messages_handler. rewrite Hq.
  apply String.eqb_neq in Hne. rewrite Hne, Hsid.
  run. rewrite Hjson. fold (log_event EvRequestJson w). rewrite Hrun.
  destruct r as [env|].
  - rewrite (Htruthy env eq_refl). cbn beta iota.
    eexists _, (queue_put env s1). split; [reflexivity|].
    cbn [heap _sessions log]. rewrite lookup_alter_eq, Hs1. cbn.
    rewrite Hq1. auto.
  - eexists w1, s1. rewrite Hq1, app_nil_r. auto.
Qed.

(** C8, as the code has it: a POST to /messages for a live session
    whose body cannot be read as JSON is answered with 400 when
    [request.json()] raises [json.JSONDecodeError], and with 500 and
    [str(e)] when it raises anything else (bytes that are not UTF-8,
    for one); either way the session table and every session
    object, queues included, are as before, and nothing was
    dispatched. *)
Theorem malformed_body_rejected (request : Request) (w : world) (sid : string)
        (session : nat) (e : exn) :
  query_sessionId request = Some sid ->
  sid <> "" ->
  _sessions w !! sid = Some session ->
  json request = Raise e ->
  exists resp w',
    messages request w = (Ok resp, w')
    /\ (exn_cls e = JSONDecodeError ->
        resp = {| status := 400;
                  body := JsonBody (VDict [("error", VStr "Invalid JSON")]) |})
    /\ (exn_cls e <> JSONDecodeError ->
        resp = {| status := 500;
                  body := JsonBody (VDict [("error", VStr (exn_str e))]) |})
    /\ _sessions w' = _sessions w
    /\ heap w' = heap w
    /\ log w' = (log w ++ [EvRequestJson])%list.
Proof.
  intros Hq Hne Hsid Hjson.
  unfold messages_handler. rewrite Hq.
  apply String.eqb_neq in Hne. rewrite Hne, Hsid.
  run. rewrite Hjson.
  destruct (exn_cls e) eqn:Hcls; cbn;
    eexists _, _; (split; [reflexivity|]);
    (split; [intros Hc; first [reflexivity | discriminate Hc]|]);
    (split; [intros Hc; first [reflexivity | now destruct Hc]|]); auto.
Qed.

(** C9: when the [sessionId] of a POST to /messages is missing,
    empty or not in the session table, the answer is 404 whatever
    the body is, and the state is untouched: the log shows neither
    a read of the body nor a dispatch. *)
Theorem session_lookup_precedes_parsing (request : Request) (w : world) :
  query_sessionId request = None
  \/ query_sessionId request = Some ""
  \/ (exists sid, query_sessionId request = Some sid /\ _sessions w !! sid = None) ->
  messages request w
  = (Ok {| status := 404; body := JsonBody (VDict [("error", VStr "Session not found")]) |}, w).
Proof.
  intros [Hq | [Hq | (sid & Hq & Hsid)]]; unfold messages_handler; rewrite Hq.
  - reflexivity.
  - reflexivity.
  - rewrite Hsid. destruct (String.eqb sid ""); reflexivity.
Qed.

Lemma json_response_error_body (message : string) (st : Z) (w : world) :
  json_response (error_body message) st w
  = (Ok {| status := st; body := JsonBody (error_body message) |}, w).
Proof. reflexivity. Qed.

Lemma json_response_text_block (text : string) (w : world) :
  json_response (VDict [("content", VList [text_block text])]) 200 w
  = (Ok {| status := 200;
           body := JsonBody (VDict [("content", VList [text_block text])]) |}, w).
Proof. reflexivity. Qed.

(** What [execute_tool] does once the arguments are there and the
    tool is known: it always answers, and the only thing it logs is
    the call of the tool. *)
Lemma execute_tail (tool_name arguments : value) (w : world) :
  exists r,
    try_except
      (let* result := call_tool handle_tool_call tool_name arguments in
       let* content := lift (rest_content result) in
       json_response (VDict [("content", content)]) 200)
      (fun e => json_response (error_body (exn_str e)) 500) w
    = (Ok r, log_event (EvToolCall tool_name arguments) w).
Proof.
  run. fold (log_event (EvToolCall tool_name arguments) w).
  destruct (handle_tool_call tool_name arguments) as [result|e]; [|eauto].
  destruct (rest_content result) as [content|e]; [|eauto].
  destruct (json_dumps (VDict [("content", content)]) None) as [text|e]; eauto.
Qed.

(** A result with a text for the specification is not a list of
    [TextContent]: [execute_tool] builds the one text block. *)
Lemma rest_content_text (result : value) (text : string) :
  result_text result = Ok text ->
  rest_content result = Ok (VList [text_block text]).
Proof.
  unfold result_text, rest_content, dumps_block.
  destruct result as [ | | | | s | l | | ]; try (intros ->; reflexivity).
  - now intros [= ->].
  - destruct l as [|first rest]; [now intros [= <-]|].
    destruct (hasattr first "text") eqn:Hattr; [|intros ->; reflexivity].
    destruct first; discriminate.
Qed.

(** C4, as the code has it: with a content type other than
    [application/json] the body is not read, the arguments are the
    empty dict, and an unknown tool gets 404; with
    [application/json] and a body that is a JSON object the
    arguments are its [arguments] member (the empty dict when it
    has none), and an unknown tool gets 404; with
    [application/json] and a body that does not parse, or is not an
    object, the answer is 500 and no tool is called, known or not. *)
Theorem execute_tool_arguments (request : Request) (w : world) :
  let tool_name := match_info_tool_name request in
  let not_found :=
    {| status := 404;
       body := JsonBody (VDict [("error", VStr ("Tool '" +:+ tool_name +:+ "' not found"))]) |} in
  let w1 := log_event EvRequestJson w in
  (content_type request <> "application/json" ->
     if tool_exists get_tools (VStr tool_name)
     then exists r, execute request w
                    = (Ok r, log_event (EvToolCall (VStr tool_name) (VDict [])) w)
     else execute request w = (Ok not_found, w))
  /\ (content_type request = "application/json" ->
      match json request with
      | Ok (VDict d) =>
          if tool_exists get_tools (VStr tool_name)
          then exists r, execute request w
                         = (Ok r, log_event (EvToolCall (VStr tool_name)
                                               (dict_get d "arguments" (VDict []))) w1)
          else execute request w = (Ok not_found, w1)
      | Ok v =>
          execute request w
          = (Ok {| status := 500;
                   body := JsonBody (VDict [("error", VStr (exn_str (no_attribute v "get")))]) |}, w1)
      | Raise e =>
          execute request w
          = (Ok {| status := 500; body := JsonBody (VDict [("error", VStr (exn_str e))]) |}, w1)
      end).
Proof.
  intros tool_name not_found w1. split.
  - intros Hct. apply String.eqb_neq in Hct.
    unfold execute_tool. fold tool_name. rewrite Hct.
    destruct (tool_exists get_tools (VStr tool_name)) eqn:Hex; cbn [negb].
    + destruct (execute_tail (VStr tool_name) (VDict []) w) as [r Hr].
      exists r. rewrite <- Hr. reflexivity.
    + reflexivity.
  - intros Hct. apply String.eqb_eq in Hct.
    unfold execute_tool. fold tool_name. rewrite Hct.
    destruct (json request) as [v|e] eqn:Hjson.
    + destruct v;
        try (unfold try_except, bind, request_json, tell, lift;
             cbn beta iota; rewrite Hjson; reflexivity).
      destruct (tool_exists get_tools (VStr tool_name)) eqn:Hex.
      * destruct (execute_tail (VStr tool_name) (dict_get d "arguments" (VDict [])) w1)
          as [r Hr].
        exists r. rewrite <- Hr.
        unfold try_except, bind, request_json, tell, lift.
        cbn beta iota. rewrite Hjson. cbn [py_get negb]. cbn beta iota.
        reflexivity.
      * unfold try_except, bind, request_json, tell, lift.
        cbn beta iota. rewrite Hjson. cbn [py_get negb]. cbn beta iota.
        reflexivity.
    + unfold try_except, bind, request_json, tell, lift.
      cbn beta iota. rewrite Hjson. reflexivity.
Qed.

Lemma execute_known (request : Request) (w : world) (arguments : value) :
  tool_exists get_tools (VStr (match_info_tool_name request)) = true ->
  rest_arguments request arguments ->
  exists w0,
    execute request w
    = try_except
        (let* result := call_tool handle_tool_call
                          (VStr (match_info_tool_name request)) arguments in
         let* content := lift (rest_content result) in
         json_response (VDict [("content", content)]) 200)
        (fun e => json_response (error_body (exn_str e)) 500) w0.
Proof.
  intros Hex [(Hct & b & Hjson & Hargs) | (Hct & ->)]; unfold execute_tool.
  - apply String.eqb_eq in Hct. rewrite Hct. exists (log_event EvRequestJson w).
    run. rewrite Hjson. cbn [py_get]. cbn beta iota.
    rewrite Hargs, Hex. reflexivity.
  - apply String.eqb_neq in Hct. rewrite Hct. exists w.
    unfold try_except, bind, ret. rewrite Hex. reflexivity.
Qed.

Lemma res_map_blocks (items blocks : list value) :
  Forall2 block_of items blocks -> res_map item_block items = Ok blocks.
Proof.
  induction 1 as [|item block items blocks (cls & attrs & ty & tx & -> & Hty & Htx & ->) _ IH];
    [reflexivity|].
  cbn [res_map]. unfold item_block at 1. cbn [getattr]. now rewrite Hty, Htx, IH.
Qed.

Lemma res_map_item_block_raises (items : list value) :
  Exists (fun item => hasattr item "type" = false \/ hasattr item "text" = false) items ->
  exists e, res_map item_block items = Raise e.
Proof.
  induction 1 as [item items Hbad | item items _ [e IH]]; cbn [res_map].
  - assert (Hraise : exists e, item_block item = Raise e).
    { unfold item_block. destruct item; try (eexists; reflexivity).
      cbn [getattr hasattr] in *.
      destruct (assoc "type" attrs); [|eexists; reflexivity].
      destruct (assoc "text" attrs); [|eexists; reflexivity].
      destruct Hbad; discriminate. }
    destruct Hraise as [e ->]. eauto.
  - destruct (item_block item); [|eauto]. rewrite IH. eauto.
Qed.

(** C3, as the code has it: for a registered tool and a result
    that is a str or that [json.dumps] can serialize, the REST
    endpoint answers 200 with the same [content] as the
    [tools/call] branch of the dispatcher, one text block holding
    the str as it is or the indented JSON text.  For a non-empty
    list whose first item has a [text] attribute the REST endpoint
    takes its own branch: when every item has a [type] and a [text]
    and these can be serialized, it answers 200 with one block per
    item, made of that item's [type] and [text]; when an item
    lacks one of the two, or the blocks cannot be serialized, it
    answers 500. *)
Theorem rest_content_matches_tools_call
        (request : Request) (session : nat) (d p : list (string * value))
        (w wr : world) (tool_name : string) (arguments result : value) :
  match_info_tool_name request = tool_name ->
  tool_exists get_tools (VStr tool_name) = true ->
  rest_arguments request arguments ->
  str_eq (dict_get d "method" VNone) "tools/call" = true ->
  dict_get d "params" (VDict []) = VDict p ->
  dict_get p "name" VNone = VStr tool_name ->
  dict_get p "arguments" (VDict []) = arguments ->
  handle_tool_call (VStr tool_name) arguments = Ok result ->
  (forall text,
      result_text result = Ok text ->
      exists resp w1 env w2,
        execute request w = (Ok resp, w1)
        /\ status resp = 200
        /\ http_content resp
           = Some (VList [VDict [("type", VStr "text"); ("text", VStr text)]])
        /\ handle session (VDict d) wr = (Ok (Some env), w2)
        /\ rpc_content env
           = Some (VList [VDict [("type", VStr "text"); ("text", VStr text)]]))
  /\ (forall items blocks t,
        result = VList items ->
        items <> [] ->
        Forall2 block_of items blocks ->
        json_dumps (VDict [("content", VList blocks)]) None = Ok t ->
        exists resp w1,
          execute request w = (Ok resp, w1)
          /\ status resp = 200
          /\ http_content resp = Some (VList blocks))
  /\ (forall items,
        result = VList items ->
        is_text_content_list result = true ->
        Exists (fun item => hasattr item "type" = false \/ hasattr item "text" = false) items
        \/ (exists blocks e,
               Forall2 block_of items blocks
               /\ json_dumps (VDict [("content", VList blocks)]) None = Raise e) ->
        exists resp w1,
          execute request w = (Ok resp, w1)
          /\ status resp = 500).
Proof.
  intros <- Hex Hrest Hm Hp Hname Hargs Hcall.
  destruct (execute_known request w arguments Hex Hrest) as [w0 Hexec].
  split; [|split].
  - intros text Htext.
    assert (Hrpc : handle session (VDict d) wr
                   = (Ok (Some (result_envelope (dict_get d "id" VNone)
                                  (VDict [("content", VList [text_block text])]))),
                      log_event (EvToolCall (VStr (match_info_tool_name request)) arguments)
                                (log_event (EvDispatch (VDict d)) wr))).
    { rewrite handle_dict. apply str_eq_true in Hm. rewrite Hm, Hp.
      unfold dispatch, try_except. cbn [str_eq String.eqb Ascii.eqb Bool.eqb].
      run. cbn [py_get]. rewrite Hname, Hargs, Hex. cbn [negb]. rewrite Hcall.
      unfold result_text in Htext.
      destruct result; try (rewrite Htext; reflexivity).
      injection Htext as ->. reflexivity. }
    rewrite Hexec, Hrpc. run. rewrite Hcall, (rest_content_text _ _ Htext).
    eexists _, _, _, _. repeat split; reflexivity.
  - intros items blocks t -> Hne Hblocks Ht.
    rewrite Hexec. run. rewrite Hcall.
    assert (Hmap := res_map_blocks _ _ Hblocks).
    destruct Hblocks as [|first block rest blocks' (cls & attrs & ty & tx & -> & _ & Htx & _) _];
      [now destruct Hne|].
    unfold rest_content. cbn [hasattr]. rewrite Htx, Hmap, Ht.
    eexists _, _. repeat split; reflexivity.
  - intros items -> Hlist Hbad.
    rewrite Hexec. run. rewrite Hcall.
    destruct items as [|first rest]; [discriminate|].
    cbn [is_text_content_list] in Hlist.
    unfold rest_content. rewrite Hlist.
    destruct Hbad as [Hbad | (blocks & e & Hblocks & Hdumps)].
    + destruct (res_map_item_block_raises _ Hbad) as [e ->].
      eexists _, _. split; reflexivity.
    + rewrite (res_map_blocks _ _ Hblocks), Hdumps.
      eexists _, _. split; reflexivity.
Qed.

End Http.

(** * The properties on the small server *)

(** A tool that raises: the envelope carries -32603 and [str(e)]. *)
Lemma dispatcher_never_throws_witness :
  Demo.handle_tool_call (VStr "boom") (VDict []) = Raise Demo.failed
  /\ Demo.handle 0%nat (Demo.rpc 7 "tools/call" (VDict [("name", VStr "boom")])) Demo.w0
     = (Ok (Some (VDict [("jsonrpc", VStr "2.0"); ("id", VInt 7);
                         ("error", VDict [("code", VInt (-32603));
                                          ("message", VStr "backend down")])])),
        log_event (EvToolCall (VStr "boom") (VDict []))
          (log_event
             (EvDispatch (Demo.rpc 7 "tools/call" (VDict [("name", VStr "boom")])))
             Demo.w0)).
Proof.
  split; [reflexivity|].
  destruct (dispatcher_never_throws "demo" "1.0" Demo.tools Demo.handle_tool_call 0%nat
              (Demo.rpc_fields 7 "tools/call" (VDict [("name", VStr "boom")])) Demo.w0)
    as (_ & _ & Htool & _).
  apply (Htool [("name", VStr "boom")] Demo.failed); reflexivity.
Defined.

Lemma unknown_tool_not_invoked_witness :
  tool_exists Demo.tools (VStr "missing_tool") = false
  /\ exists w',
      Demo.handle 0%nat
        (Demo.rpc 2 "tools/call" (VDict [("name", VStr "missing_tool"); ("arguments", VDict [])]))
        Demo.w0
      = (Ok (Some (VDict [("jsonrpc", VStr "2.0"); ("id", VInt 2);
                          ("error", VDict [("code", VInt (-32601));
                                           ("message", VStr "Tool 'missing_tool' not found")])])), w')
      /\ w' = log_event
                (EvDispatch (Demo.rpc 2 "tools/call"
                               (VDict [("name", VStr "missing_tool"); ("arguments", VDict [])])))
                Demo.w0
      /\ tool_calls (log w') = tool_calls (log Demo.w0).
Proof.
  split; [reflexivity|].
  apply (unknown_tool_not_invoked "demo" "1.0" Demo.tools Demo.handle_tool_call 0%nat
           (Demo.rpc_fields 2 "tools/call"
              (VDict [("name", VStr "missing_tool"); ("arguments", VDict [])]))
           [("name", VStr "missing_tool"); ("arguments", VDict [])] Demo.w0);
    reflexivity.
Defined.

Lemma envelope_well_formed_witness :
  well_formed_envelope
    (VDict [("jsonrpc", VStr "2.0"); ("id", VInt 1);
            ("result", (VDict [("tools", VList (tools_data Demo.tools))]))]) = true.
Proof.
  apply (envelope_well_formed "demo" "1.0" Demo.tools Demo.handle_tool_call 0%nat
           (Demo.rpc 1 "tools/list" (VDict [])) _ Demo.w0
           (log_event (EvDispatch (Demo.rpc 1 "tools/list" (VDict []))) Demo.w0)).
  reflexivity.
Defined.

Lemma response_id_round_trip_witness :
  exists env e w',
    Demo.handle 0%nat (Demo.rpc 5 "prompts/list" (VDict [])) Demo.w0 = (Ok (Some env), w')
    /\ env = VDict e
    /\ assoc "id" e = Some (VInt 5).
Proof.
  apply (response_id_round_trip "demo" "1.0" Demo.tools Demo.handle_tool_call 0%nat
           (Demo.rpc_fields 5 "prompts/list" (VDict [])) Demo.w0).
  reflexivity.
Defined.

Lemma missing_name_is_tool_not_found_witness :
  Demo.handle 0%nat (Demo.rpc 9 "tools/call" (VDict [("arguments", VDict [])])) Demo.w0
  = (Ok (Some (VDict [("jsonrpc", VStr "2.0"); ("id", VInt 9);
                      ("error", VDict [("code", VInt (-32601));
                                       ("message", VStr "Tool 'None' not found")])])),
     log_event (EvDispatch (Demo.rpc 9 "tools/call" (VDict [("arguments", VDict [])])))
               Demo.w0)
  /\ error_code (VDict [("jsonrpc", VStr "2.0"); ("id", VInt 9);
                        ("error", VDict [("code", VInt (-32601));
                                         ("message", VStr "Tool 'None' not found")])]) <> Some (-32602).
Proof.
  destruct (missing_name_is_tool_not_found "demo" "1.0" Demo.tools Demo.handle_tool_call)
    as [Hname Hcode].
  assert (Hrun := Hname 0%nat (Demo.rpc_fields 9 "tools/call" (VDict [("arguments", VDict [])]))
                        [("arguments", VDict [])] Demo.w0
                        eq_refl eq_refl eq_refl eq_refl).
  split; [exact Hrun|].
  exact (proj1 (Hcode 0%nat _ _ _ _ Hrun)).
Defined.


Lemma messages_accepted_witness :
  let request := Demo.post_message (Some "s-1") (Ok (Demo.rpc 1 "tools/list" (VDict []))) in
  let env := (VDict [("jsonrpc", VStr "2.0"); ("id", VInt 1);
                     ("result", (VDict [("tools", VList (tools_data Demo.tools))]))]) in
  _sessions Demo.w0 !! "s-1" = Some 0%nat
  /\ exists w2 s2,
      Demo.messages request Demo.w0
      = (Ok {| status := 202; body := TextBody "Accepted" |}, w2)
      /\ _sessions w2 = _sessions Demo.w0
      /\ heap w2 !! 0%nat = Some s2
      /\ queue s2 = (queue Demo.session0 ++ [env])%list
      /\ In (EvDispatch (Demo.rpc 1 "tools/list" (VDict []))) (log w2).
Proof.
  intros request env. split; [reflexivity|].
  apply (messages_accepted "demo" "1.0" Demo.tools Demo.handle_tool_call request Demo.w0
           (log_event (EvDispatch (Demo.rpc 1 "tools/list" (VDict [])))
                      (log_event EvRequestJson Demo.w0))
           "s-1" 0%nat Demo.session0 (Demo.rpc 1 "tools/list" (VDict [])) (Some env));
    [reflexivity | discriminate | reflexivity | reflexivity | reflexivity | reflexivity].
Defined.

(** C8 does not hold as it is written: a body of bytes that are not
    UTF-8 fails to parse, [request.json()] raises
    [UnicodeDecodeError], and the answer is 500, not 400. *)
Lemma undecodable_body_is_not_400 :
  let request := Demo.post_message (Some "s-1") (Raise Demo.bad_utf8) in
  _sessions Demo.w0 !! "s-1" = Some 0%nat
  /\ json request = Raise Demo.bad_utf8
  /\ fst (Demo.messages request Demo.w0)
     = Ok {| status := 500;
             body := JsonBody (VDict [("error", VStr (exn_str Demo.bad_utf8))]) |}
  /\ ~ (exists r, fst (Demo.messages request Demo.w0) = Ok r /\ status r = 400).
Proof.
  intros request. repeat split; try reflexivity.
  intros (r & Hr & Hs). vm_compute in Hr. injection Hr as <-. discriminate Hs.
Qed.

Lemma malformed_body_rejected_witness :
  let request := Demo.post_message (Some "s-1") (Raise Demo.bad_json) in
  exists resp w',
    Demo.messages request Demo.w0 = (Ok resp, w')
    /\ resp = {| status := 400;
                 body := JsonBody (VDict [("error", VStr "Invalid JSON")]) |}
    /\ _sessions w' = _sessions Demo.w0
    /\ heap w' = heap Demo.w0
    /\ log w' = (log Demo.w0 ++ [EvRequestJson])%list.
Proof.
  intros request.
  destruct (malformed_body_rejected "demo" "1.0" Demo.tools Demo.handle_tool_call request
              Demo.w0 "s-1" 0%nat Demo.bad_json)
    as (resp & w' & Hrun & H400 & _ & Ht & Hh & Hl);
    [reflexivity | discriminate | reflexivity | reflexivity |].
  exists resp, w'. split; [exact Hrun|]. split; [now apply H400 | auto].
Defined.

Lemma session_lookup_precedes_parsing_witness :
  let request := Demo.post_message (Some "gone") (Raise Demo.bad_json) in
  _sessions Demo.w0 !! "gone" = None
  /\ Demo.messages request Demo.w0
     = (Ok {| status := 404; body := JsonBody (VDict [("error", VStr "Session not found")]) |}, Demo.w0).
Proof.
  intros request. split; [reflexivity|].
  apply (session_lookup_precedes_parsing "demo" "1.0" Demo.tools Demo.handle_tool_call
           request Demo.w0).
  right. right. exists "gone". split; reflexivity.
Defined.

(** C4 does not hold as it is written: with [application/json] and a
    body that is not JSON, an unknown tool gets 500, not 404, and a
    known tool is not called with the empty dict, it is not called. *)
Lemma execute_tool_malformed_body_not_404 :
  let unknown := Demo.post_tool "missing" "application/json" (Raise Demo.bad_json) in
  let known := Demo.post_tool "echo" "application/json" (Raise Demo.bad_json) in
  tool_exists Demo.tools (VStr "missing") = false
  /\ fst (Demo.execute unknown Demo.w0)
     = Ok {| status := 500; body := JsonBody (VDict [("error", VStr (exn_str Demo.bad_json))]) |}
  /\ ~ (exists r, fst (Demo.execute unknown Demo.w0) = Ok r /\ status r = 404)
  /\ tool_exists Demo.tools (VStr "echo") = true
  /\ tool_calls (log (snd (Demo.execute known Demo.w0))) = [].
Proof.
  intros unknown known. repeat split; try reflexivity.
  intros (r & Hr & Hs). vm_compute in Hr. injection Hr as <-. discriminate Hs.
Qed.

Lemma execute_tool_arguments_witness :
  let request := Demo.post_tool "echo" "application/json"
                   (Ok (VDict [("arguments", VDict [("q", VInt 1)])])) in
  content_type request = "application/json"
  /\ exists r,
      Demo.execute request Demo.w0
      = (Ok r, log_event (EvToolCall (VStr "echo") (VDict [("q", VInt 1)]))
                 (log_event EvRequestJson Demo.w0)).
Proof.
  intros request. split; [reflexivity|].
  exact (proj2 (execute_tool_arguments Demo.tools Demo.handle_tool_call request Demo.w0)
               eq_refl).
Defined.

(** C3 does not hold as it is written: for a tool that returns a list
    of [TextContent] the REST endpoint answers with the text of the
    item, which is not the JSON text of the result, and the
    [tools/call] branch of the dispatcher answers with no content at
    all, but with the error -32603. *)
Lemma text_content_result_differs :
  let result := VList [Demo.text_content "hi"] in
  let request := Demo.post_tool "mcp" "application/json" (Ok (VDict [("arguments", VDict [])])) in
  let message := Demo.rpc 3 "tools/call" (VDict [("name", VStr "mcp"); ("arguments", VDict [])]) in
  tool_exists Demo.tools (VStr "mcp") = true
  /\ Demo.handle_tool_call (VStr "mcp") (VDict []) = Ok result
  /\ fst (Demo.execute request Demo.w0)
     = Ok {| status := 200;
             body := JsonBody (VDict [("content", VList [(VDict [("type", VStr "text"); ("text", VStr "hi")])])]) |}
  /\ fst (Demo.handle 0%nat message Demo.w0)
     = Ok (Some (VDict [("jsonrpc", VStr "2.0"); ("id", VInt 3);
                        ("error", VDict [("code", VInt (-32603));
                                         ("message", VStr "Object of type TextContent is not JSON serializable")])]))
  /\ result_text result = Raise (not_serializable (Demo.text_content "hi"))
  /\ ~ (exists env c,
          fst (Demo.handle 0%nat message Demo.w0) = Ok (Some env)
          /\ rpc_content env = Some c).
Proof.
  intros result request message. repeat split; try reflexivity.
  intros (env & c & Henv & Hc). vm_compute in Henv. injection Henv as <-. discriminate Hc.
Qed.

Lemma rest_content_matches_tools_call_witness :
  let request := Demo.post_tool "echo" "application/json"
                   (Ok (VDict [("arguments", VDict [("q", VInt 1)])])) in
  let d := Demo.rpc_fields 4 "tools/call"
             (VDict [("name", VStr "echo"); ("arguments", VDict [("q", VInt 1)])]) in
  let text := "{" +:+ str1 newline +:+ "  " +:+ str1 dquote +:+ "q" +:+ str1 dquote
              +:+ ": 1" +:+ str1 newline +:+ "}" in
  let listing := Demo.post_tool "mcp" "text/plain" (Raise Demo.bad_json) in
  (result_text (VDict [("q", VInt 1)]) = Ok text
   /\ exists resp w1 env w2,
       Demo.execute request Demo.w0 = (Ok resp, w1)
       /\ status resp = 200
       /\ http_content resp
          = Some (VList [VDict [("type", VStr "text"); ("text", VStr text)]])
       /\ Demo.handle 0%nat (VDict d) Demo.w0 = (Ok (Some env), w2)
       /\ rpc_content env
          = Some (VList [VDict [("type", VStr "text"); ("text", VStr text)]]))
  /\ (Demo.handle_tool_call (VStr "mcp") (VDict []) = Ok (VList [Demo.text_content "hi"])
      /\ exists resp w1,
          Demo.execute listing Demo.w0 = (Ok resp, w1)
          /\ status resp = 200
          /\ http_content resp
             = Some (VList [VDict [("type", VStr "text"); ("text", VStr "hi")]])).
Proof.
  intros request d text listing. split; (split; [reflexivity|]).
  - refine (proj1 (rest_content_matches_tools_call "demo" "1.0" Demo.tools
                     Demo.handle_tool_call
                     request 0%nat d
                     [("name", VStr "echo"); ("arguments", VDict [("q", VInt 1)])]
                     Demo.w0 Demo.w0 "echo" (VDict [("q", VInt 1)]) (VDict [("q", VInt 1)])
                     eq_refl eq_refl _ eq_refl eq_refl eq_refl eq_refl eq_refl) text eq_refl).
    left. split; [reflexivity|]. eexists. split; reflexivity.
  - refine (proj1 (proj2 (rest_content_matches_tools_call "demo" "1.0" Demo.tools
                            Demo.handle_tool_call
                            listing 0%nat
                            (Demo.rpc_fields 5 "tools/call" (VDict [("name", VStr "mcp")]))
                            [("name", VStr "mcp")]
                            Demo.w0 Demo.w0 "mcp" (VDict []) (VList [Demo.text_content "hi"])
                            eq_refl eq_refl _ eq_refl eq_refl eq_refl eq_refl eq_refl))
                  [Demo.text_content "hi"]
                  [VDict [("type", VStr "text"); ("text", VStr "hi")]]
                  _ eq_refl _ _ eq_refl).
    + right. split; [discriminate | reflexivity].
    + discriminate.
    + constructor; [|constructor].
      exists "TextContent", [("type", VStr "text"); ("text", VStr "hi")], (VStr "text"), (VStr "hi").
      repeat split; reflexivity.
Defined.

(** * More of the server: the dispatcher's branches, the other endpoints *)

(** ** JSON data can be serialized *)

Lemma encode_list (indent : option nat) (level : nat) (l : list value) :
  encode indent level (VList l) =
  match l with
  | [] => Ok "[]"
  | _ => match res_map (encode indent (S level)) l with
         | Raise e => Raise e
         | Ok chunks =>
             Ok ("[" +:+ newline_indent indent (S level)
                     +:+ join (item_separator indent (S level)) chunks
                     +:+ newline_indent indent level +:+ "]")
         end
  end.
Proof.
  destruct l as [|x r]; [reflexivity|].
  cbn [encode res_map].
  match goal with
  | |- context [match ?f r with _ => _ end] => set (go := f)
  end.
  assert (Hgo : forall l', go l' = res_map (encode indent (S level)) l').
  { induction l' as [|y l' IH]; [reflexivity|].
    cbn [res_map]. rewrite <- IH. reflexivity. }
  now rewrite Hgo.
Qed.

Lemma encode_dict (indent : option nat) (level : nat) (d : list (string * value)) :
  encode indent level (VDict d) =
  match d with
  | [] => Ok "{}"
  | _ => match res_map (encode_member indent (S level)) d with
         | Raise e => Raise e
         | Ok chunks =>
             Ok ("{" +:+ newline_indent indent (S level)
                     +:+ join (item_separator indent (S level)) chunks
                     +:+ newline_indent indent level +:+ "}")
         end
  end.
Proof.
  destruct d as [|[k x] r]; [reflexivity|].
  cbn [encode res_map]. unfold encode_member at 1. cbn [fst snd].
  match goal with
  | |- context [match ?f r with _ => _ end] => set (go := f)
  end.
  assert (Hgo : forall d', go d' = res_map (encode_member indent (S level)) d').
  { induction d' as [|[k' y] d' IH]; [reflexivity|].
    cbn [res_map]. rewrite <- IH. unfold encode_member. cbn [fst snd].
    change (go ((k', y) :: d'))
      with (match encode indent (S level) y with
            | Ok s => match go d' with
                      | Ok ss => Ok ((encode_basestring_ascii k' +:+ ": " +:+ s) :: ss)
                      | Raise e => Raise e
                      end
            | Raise e => Raise e
            end).
    destruct (encode indent (S level) y); reflexivity. }
  rewrite Hgo. destruct (encode indent (S level) x); reflexivity.
Qed.

Lemma res_map_ok {A B} (f : A -> res B) (l : list A) :
  Forall (fun x => exists y, f x = Ok y) l -> exists ys, res_map f l = Ok ys.
Proof.
  induction 1 as [|x l [y Hy] _ [ys Hys]]; [now exists []|].
  exists (y :: ys). cbn. now rewrite Hy, Hys.
Qed.

(** [json.dumps] raises on no JSON data, whatever the indent. *)
Lemma encode_json (indent : option nat) (v : value) :
  forall level, is_json v = true -> exists text, encode indent level v = Ok text.
Proof.
  induction v as [| b | z | r | s | l IH | d IH | cls attrs] using value_nested_ind;
    intros level Hj; try (eexists; reflexivity).
  - destruct b; eexists; reflexivity.
  - rewrite encode_list. destruct l as [|x l']; [eexists; reflexivity|].
    destruct (res_map_ok (encode indent (S level)) (x :: l')) as [ys ->]; [|eauto].
    cbn [is_json] in Hj. pose proof (proj1 (List.forallb_forall _ _) Hj) as Hin.
    rewrite Forall_forall in IH |- *.
    intros y Hy. apply IH; [exact Hy|]. apply Hin. now apply list_elem_of_In.
  - rewrite encode_dict. destruct d as [|kv d']; [eexists; reflexivity|].
    destruct (res_map_ok (encode_member indent (S level)) (kv :: d')) as [ys ->]; [|eauto].
    cbn [is_json] in Hj. pose proof (proj1 (List.forallb_forall _ _) Hj) as Hin.
    rewrite Forall_forall in IH |- *.
    intros y Hy. unfold encode_member.
    destruct (IH y Hy (S level)) as [t ->]; [|eauto].
    apply (Hin y). now apply list_elem_of_In.
  - discriminate.
Qed.

Lemma is_json_dict_get (d : list (string * value)) (key : string) (default : value) :
  is_json (VDict d) = true -> is_json default = true ->
  is_json (dict_get d key default) = true.
Proof.
  unfold dict_get. cbn [is_json]. intros Hd Hdef.
  induction d as [|[k v] d IH]; [exact Hdef|].
  cbn in Hd |- *. apply andb_prop in Hd. destruct Hd as [Hv Hd].
  destruct (String.eqb k key); [exact Hv | now apply IH].
Qed.

Lemma tools_data_json (tools : list Tool) :
  tools_are_json tools = true -> forallb is_json (tools_data tools) = true.
Proof.
  unfold tools_are_json, tools_data.
  induction tools as [|t ts IH]; [reflexivity|].
  cbn. intros H. apply andb_prop in H. destruct H as [Ht Hts].
  apply andb_prop in Ht. destruct Ht as [Hd Hs].
  now rewrite Hd, Hs, IH.
Qed.

(** ** The branches of the dispatcher *)

Section DispatcherBranches.

Variable server_name : string.
Variable version : string.
Variable get_tools : list Tool.
Variable handle_tool_call : value -> value -> res value.

Abbreviation handle := (_handle_jsonrpc_message server_name version get_tools handle_tool_call).
Abbreviation run_dispatch := (dispatch server_name version get_tools handle_tool_call).

Ltac enter_branch Hm :=
  rewrite handle_dict; apply str_eq_true in Hm; rewrite Hm;
  unfold dispatch, try_except; cbn [str_eq String.eqb Ascii.eqb Bool.eqb]; run.

(** [tools/list] answers with one entry per registered tool, in the
    order of [get_tools()], each with the name, description and
    schema of its tool; [params] is not looked at and no state
    changes. *)
Theorem tools_list_in_order (session : nat) (d : list (string * value)) (w : world) :
  str_eq (dict_get d "method" VNone) "tools/list" = true ->
  exists entries,
    handle session (VDict d) w
    = (Ok (Some (VDict [("jsonrpc", VStr "2.0"); ("id", dict_get d "id" VNone);
                        ("result", (VDict [("tools", VList entries)]))])),
       log_event (EvDispatch (VDict d)) w)
    /\ length entries = length get_tools
    /\ forall i,
        entries !! i
        = (fun t => VDict [("name", VStr (name t)); ("description", description t);
                           ("inputSchema", inputSchema t)]) <$> get_tools !! i.
Proof.
  intros Hm. exists (tools_data get_tools). split; [|split].
  - enter_branch Hm. reflexivity.
  - unfold tools_data. apply length_map.
  - intros i. unfold tools_data. apply list_lookup_fmap.
Qed.

(** [initialize] raises the [initialized] flag of the session it is
    given and of no other, leaves its queue and the session table
    alone, and answers with the protocol version and the name and
    version of the server; a second [initialize] changes nothing
    more. *)
Theorem initialize_marks_session (session : nat) (d : list (string * value))
        (w : world) (s : SSESession) :
  str_eq (dict_get d "method" VNone) "initialize" = true ->
  heap w !! session = Some s ->
  exists env w',
    handle session (VDict d) w = (Ok (Some env), w')
    /\ py_get env "result" VNone
       = Ok (VDict [("protocolVersion", VStr "2024-11-05");
                    ("capabilities", VDict [("tools", VDict []); ("resources", VDict [])]);
                    ("serverInfo", VDict [("name", VStr server_name);
                                          ("version", VStr version)])])
    /\ heap w' !! session
       = Some {| session_id := session_id s; queue := queue s; initialized := true |}
    /\ (forall other, other <> session -> heap w' !! other = heap w !! other)
    /\ _sessions w' = _sessions w
    /\ forall r w'', handle session (VDict d) w' = (r, w'') -> heap w'' = heap w'.
Proof.
  intros Hm Hs. eexists _, _. split; [|split; [|split; [|split; [|split]]]].
  - enter_branch Hm. reflexivity.
  - reflexivity.
  - cbn [heap log_event]. rewrite lookup_alter_eq, Hs. reflexivity.
  - intros other Hne. cbn [heap log_event]. now rewrite lookup_alter_ne.
  - reflexivity.
  - intros r w''. enter_branch Hm. intros [= <- <-]. cbn [heap log_event].
    apply map_eq. intros l. destruct (decide (session = l)) as [<- | Hne].
    + rewrite !lookup_alter_eq. now destruct (heap w !! session).
    + now rewrite !lookup_alter_ne.
Qed.

Lemma dispatch_heap (session : nat) (method msg_id params : value) (w w' : world)
      (r : res (option value)) :
  str_eq method "initialize" = false ->
  run_dispatch session method msg_id params w = (r, w') ->
  heap w' = heap w /\ _sessions w' = _sessions w.
Proof.
  intros Hi. unfold dispatch. rewrite Hi.
  destruct (str_eq method "notifications/initialized"); [run; now intros [= <- <-]|].
  destruct (str_eq method "tools/list"); [run; now intros [= <- <-]|].
  destruct (str_eq method "tools/call").
  { run. destruct (py_get params "name" VNone) as [tool_name|e]; [|now intros [= <- <-]].
    destruct (py_get params "arguments" (VDict [])) as [arguments|e]; [|now intros [= <- <-]].
    destruct (tool_exists get_tools tool_name); cbn [negb]; [|now intros [= <- <-]].
    destruct (handle_tool_call tool_name arguments) as [result|e]; [|now intros [= <- <-]].
    destruct result;
      try (destruct (json_dumps _ (Some 2%nat)) as [text|e]); now intros [= <- <-]. }
  destruct (str_eq method "resources/list"); [run; now intros [= <- <-]|].
  destruct (str_eq method "prompts/list"); run; now intros [= <- <-].
Qed.

(** Whatever the message and however the call ends, the dispatcher
    leaves the session table and every session object as they were,
    unless the method is [initialize]: it never puts anything on a
    queue itself. *)
Theorem only_initialize_touches_sessions (session : nat) (message : value)
        (w w' : world) (r : res (option value)) :
  (forall d, message = VDict d -> str_eq (dict_get d "method" VNone) "initialize" = false) ->
  handle session message w = (r, w') ->
  heap w' = heap w /\ _sessions w' = _sessions w.
Proof.
  intros Hi.
  destruct message;
    try (rewrite handle_not_dict by discriminate; now intros [= <- <-]).
  rewrite handle_dict. unfold try_except.
  destruct (run_dispatch session _ _ _ _) as [[r1|e] w1] eqn:Hd;
    apply dispatch_heap in Hd; [| now apply Hi | | now apply Hi];
    unfold ret; intros [= <- <-]; exact Hd.
Qed.

(** A [tools/call] whose [params] is not a JSON object is answered
    with -32603 and the text of the [AttributeError] of
    [params.get]; no tool is looked up or called. *)
Theorem params_not_object_is_internal_error (session : nat) (d : list (string * value))
        (w : world) :
  let params := dict_get d "params" (VDict []) in
  str_eq (dict_get d "method" VNone) "tools/call" = true ->
  (forall p, params <> VDict p) ->
  handle session (VDict d) w
  = (Ok (Some (VDict [("jsonrpc", VStr "2.0"); ("id", dict_get d "id" VNone);
                      ("error", VDict [("code", VInt (-32603));
                                       ("message", VStr ("'" +:+ type_name params +:+ "' object has no attribute 'get'"))])])),
     log_event (EvDispatch (VDict d)) w).
Proof.
  intros params Hm Hp. enter_branch Hm. fold params.
  destruct params; try reflexivity. now destruct (Hp d0).
Qed.

(** A [tools/call] for a registered tool calls [handle_tool_call]
    once, with the name and with [params.arguments] as it came (the
    empty dict when there is none); when the tool returns a str or
    data [json.dumps] can write, the answer is the result envelope
    with that one text block. *)
Theorem tools_call_invokes_once (session : nat) (d p : list (string * value)) (w : world)
        (result : value) (text : string) :
  let tool_name := dict_get p "name" VNone in
  let arguments := dict_get p "arguments" (VDict []) in
  str_eq (dict_get d "method" VNone) "tools/call" = true ->
  dict_get d "params" (VDict []) = VDict p ->
  tool_exists get_tools tool_name = true ->
  handle_tool_call tool_name arguments = Ok result ->
  result_text result = Ok text ->
  exists w',
    handle session (VDict d) w
    = (Ok (Some (VDict [("jsonrpc", VStr "2.0"); ("id", dict_get d "id" VNone);
                        ("result", (VDict [("content", VList [(VDict [("type", VStr "text"); ("text", VStr text)])])]))])), w')
    /\ log w' = (log w ++ [EvDispatch (VDict d); EvToolCall tool_name arguments])%list
    /\ heap w' = heap w.
Proof.
  intros tool_name arguments Hm Hp Hex Hcall Htext.
  eexists. split; [|split].
  - enter_branch Hm. rewrite Hp. cbn [py_get]. fold tool_name arguments.
    rewrite Hex. cbn [negb]. rewrite Hcall.
    unfold result_text in Htext.
    destruct result; try (rewrite Htext; reflexivity).
    injection Htext as ->. reflexivity.
  - cbn [log log_event]. now rewrite <- app_assoc.
  - reflexivity.
Qed.

(** A [tools/call] whose tool returns something [json.dumps] cannot
    write, such as the list of [TextContent] objects of the MCP SDK,
    is answered with -32603 and the text of the [TypeError], after
    the tool has run. *)
Theorem tools_call_unserializable_result (session : nat) (d p : list (string * value))
        (w : world) (result : value) (e : exn) :
  let tool_name := dict_get p "name" VNone in
  let arguments := dict_get p "arguments" (VDict []) in
  str_eq (dict_get d "method" VNone) "tools/call" = true ->
  dict_get d "params" (VDict []) = VDict p ->
  tool_exists get_tools tool_name = true ->
  handle_tool_call tool_name arguments = Ok result ->
  json_dumps result (Some 2%nat) = Raise e ->
  exists w',
    handle session (VDict d) w
    = (Ok (Some (VDict [("jsonrpc", VStr "2.0"); ("id", dict_get d "id" VNone);
                        ("error", VDict [("code", VInt (-32603));
                                         ("message", VStr (exn_str e))])])), w')
    /\ log w' = (log w ++ [EvDispatch (VDict d); EvToolCall tool_name arguments])%list
    /\ (forall cls attrs rest,
          result = VList (VObj cls attrs :: rest) ->
          exn_str e = "Object of type " +:+ cls +:+ " is not JSON serializable").
Proof.
  intros tool_name arguments Hm Hp Hex Hcall Hdumps.
  eexists. split; [|split].
  - enter_branch Hm. rewrite Hp. cbn [py_get]. fold tool_name arguments.
    rewrite Hex. cbn [negb]. rewrite Hcall.
    destruct result; try (rewrite Hdumps; reflexivity).
    discriminate Hdumps.
  - cbn [log log_event]. now rewrite <- app_assoc.
  - intros cls attrs rest ->. cbn in Hdumps. now injection Hdumps as <-.
Qed.

End DispatcherBranches.

(** ** What goes on a queue can be written to the stream *)

Section Serializable.

Variable server_name : string.
Variable version : string.
Variable get_tools : list Tool.
Variable handle_tool_call : value -> value -> res value.

Abbreviation handle := (_handle_jsonrpc_message server_name version get_tools handle_tool_call).
Abbreviation run_dispatch := (dispatch server_name version get_tools handle_tool_call).

Lemma dispatch_json (session : nat) (method msg_id params : value) (w w' : world)
      (env : value) :
  tools_are_json get_tools = true ->
  is_json msg_id = true ->
  run_dispatch session method msg_id params w = (Ok (Some env), w') ->
  is_json env = true.
Proof.
  intros Htools Hid. unfold dispatch.
  assert (Hres : forall r, is_json r = true -> is_json (result_envelope msg_id r) = true)
    by (intros r Hr; cbn; now rewrite Hid, Hr).
  assert (Herr : forall c m, is_json (error_envelope msg_id c m) = true)
    by (intros c m; cbn; now rewrite Hid).
  destruct (str_eq method "initialize"); [run; intros [= <- <-]; now apply Hres|].
  destruct (str_eq method "notifications/initialized"); [run; discriminate|].
  destruct (str_eq method "tools/list").
  { run. intros [= <- <-]. apply Hres. cbn [is_json forallb snd].
    now rewrite (tools_data_json _ Htools). }
  destruct (str_eq method "tools/call").
  { run. destruct (py_get params "name" VNone) as [tool_name|e]; [|discriminate].
    destruct (py_get params "arguments" (VDict [])) as [arguments|e]; [|discriminate].
    destruct (tool_exists get_tools tool_name); cbn [negb];
      [|intros [= <- <-]; apply Herr].
    destruct (handle_tool_call tool_name arguments) as [result|e]; [|discriminate].
    destruct result;
      try (destruct (json_dumps _ (Some 2%nat)) as [text|e]; [|discriminate]);
      intros [= <- <-]; now apply Hres. }
  destruct (str_eq method "resources/list"); [run; intros [= <- <-]; now apply Hres|].
  destruct (str_eq method "prompts/list"); run; intros [= <- <-]; apply Herr.
Qed.

Lemma handle_envelope_json (session : nat) (d : list (string * value))
      (w w' : world) (env : value) :
  is_json (VDict d) = true ->
  tools_are_json get_tools = true ->
  handle session (VDict d) w = (Ok (Some env), w') ->
  is_json env = true.
Proof.
  intros Hd Htools Hrun.
  assert (Hid : is_json (dict_get d "id" VNone) = true)
    by now apply is_json_dict_get.
  rewrite handle_dict in Hrun. unfold try_except in Hrun.
  destruct (run_dispatch session _ _ _ _) as [[r|e] w1] eqn:Hdisp.
  - injection Hrun as -> ->. eapply dispatch_json; eauto.
  - unfold ret in Hrun. injection Hrun as <- <-. cbn. now rewrite Hid.
Qed.

(** When the request is JSON data and the tools describe themselves
    with JSON data, every envelope the dispatcher returns is JSON
    data, so the [json.dumps] of the SSE loop and of the stdio line
    cannot raise on it. *)
Theorem envelope_is_serializable (session : nat) (d : list (string * value))
        (w w' : world) (env : value) :
  is_json (VDict d) = true ->
  tools_are_json get_tools = true ->
  handle session (VDict d) w = (Ok (Some env), w') ->
  is_json env = true /\ exists text, json_dumps env None = Ok text.
Proof.
  intros Hd Htools Hrun.
  assert (Hj : is_json env = true) by (eapply handle_envelope_json; eauto).
  split; [exact Hj|]. now apply encode_json.
Qed.

End Serializable.

(** ** The HTTP handlers *)

Section Handlers.

Variable server_name : string.
Variable version : string.
Variable get_tools : list Tool.
Variable handle_tool_call : value -> value -> res value.

Abbreviation handle := (_handle_jsonrpc_message server_name version get_tools handle_tool_call).
Abbreviation messages := (messages_handler server_name version get_tools handle_tool_call).
Abbreviation execute := (execute_tool get_tools handle_tool_call).

(** The [try] block of [messages_handler] once the session is found. *)
Lemma messages_found (request : Request) (w : world) (sid : string) (session : nat) :
  query_sessionId request = Some sid ->
  sid <> "" ->
  _sessions w !! sid = Some session ->
  messages request w
  = match json request with
    | Raise e =>
        json_response (error_body (match exn_cls e with
                                   | JSONDecodeError => "Invalid JSON"
                                   | _ => exn_str e
                                   end))
                      (match exn_cls e with JSONDecodeError => 400 | _ => 500 end)
                      (log_event EvRequestJson w)
    | Ok data =>
        match handle session data (log_event EvRequestJson w) with
        | (Raise e, w1) =>
            json_response (error_body (match exn_cls e with
                                       | JSONDecodeError => "Invalid JSON"
                                       | _ => exn_str e
                                       end))
                          (match exn_cls e with JSONDecodeError => 400 | _ => 500 end) w1
        | (Ok None, w1) => (Ok {| status := 202; body := TextBody "Accepted" |}, w1)
        | (Ok (Some r), w1) =>
            (Ok {| status := 202; body := TextBody "Accepted" |},
             if truthy r
             then {| heap := alter (queue_put r) session (heap w1);
                     _sessions := _sessions w1; log := log w1 |}
             else w1)
        end
    end.
Proof.
  intros Hq Hne Hsid. unfold messages_handler. rewrite Hq.
  apply String.eqb_neq in Hne. rewrite Hne, Hsid.
  run. fold (log_event EvRequestJson w).
  destruct (json request) as [data|e].
  - destruct (handle session data (log_event EvRequestJson w)) as [[[r|]|e] w1].
    + now destruct (truthy r).
    + reflexivity.
    + now destruct (exn_cls e).
  - now destruct (exn_cls e).
Qed.

(** [POST /messages] answers every request: it never raises, its
    status is 202, 400, 404 or 500, and the session table is the one
    it found. *)
Theorem messages_handler_always_answers (request : Request) (w : world) :
  exists resp w',
    messages request w = (Ok resp, w')
    /\ (status resp = 202 \/ status resp = 400 \/ status resp = 404 \/ status resp = 500)
    /\ _sessions w' = _sessions w.
Proof.
  destruct (query_sessionId request) as [sid|] eqn:Hq.
  2:{ eexists _, w. unfold messages_handler. rewrite Hq. split; [reflexivity|]. auto. }
  destruct (String.eqb sid "") eqn:Hsid0.
  { eexists _, w. unfold messages_handler. rewrite Hq, Hsid0. split; [reflexivity|]. auto. }
  destruct (_sessions w !! sid) as [session|] eqn:Hsid.
  2:{ eexists _, w. unfold messages_handler. rewrite Hq, Hsid0, Hsid.
      split; [reflexivity|]. auto. }
  apply String.eqb_neq in Hsid0.
  rewrite (messages_found request w sid session Hq Hsid0 Hsid).
  destruct (json request) as [data|e].
  - destruct (handle session data (log_event EvRequestJson w)) as [[[r|]|e] w1] eqn:Hrun;
      destruct (handle_state _ _ _ _ _ _ _ _ _ Hrun) as (Ht & _).
    + eexists _, _. split; [reflexivity|]. split; [auto|]. now destruct (truthy r).
    + eexists _, _. split; [reflexivity|]. auto.
    + rewrite json_response_error_body. eexists _, _. split; [reflexivity|].
      split; [|exact Ht]. cbn [status]. destruct (exn_cls e); auto.
  - rewrite json_response_error_body. eexists _, _. split; [reflexivity|].
    split; [|reflexivity]. cbn [status]. destruct (exn_cls e); auto.
Qed.

(** A body that is JSON but not a JSON object (a list, a number, a
    batch) makes the dispatcher raise on [message.get]: the POST is
    answered with 500 and the text of the [AttributeError], and no
    queue receives anything. *)
Theorem non_object_body_is_500 (request : Request) (w : world) (sid : string)
        (session : nat) (data : value) :
  query_sessionId request = Some sid ->
  sid <> "" ->
  _sessions w !! sid = Some session ->
  json request = Ok data ->
  (forall d, data <> VDict d) ->
  exists w',
    messages request w
    = (Ok {| status := 500;
             body := JsonBody (VDict [("error", VStr ("'" +:+ type_name data +:+ "' object has no attribute 'get'"))]) |}, w')
    /\ heap w' = heap w
    /\ log w' = (log w ++ [EvRequestJson; EvDispatch data])%list.
Proof.
  intros Hq Hne Hsid Hjson Hnd.
  rewrite (messages_found request w sid session Hq Hne Hsid), Hjson.
  rewrite handle_not_dict by exact Hnd.
  eexists. split; [reflexivity|]. split; [reflexivity|].
  cbn [log log_event]. now rewrite <- app_assoc.
Qed.

(** When reading the body fails with anything but a
    [JSONDecodeError], the POST is answered with 500 and [str(e)];
    nothing is dispatched and no state changes. *)
Theorem body_read_error_is_500 (request : Request) (w : world) (sid : string)
        (session : nat) (e : exn) :
  query_sessionId request = Some sid ->
  sid <> "" ->
  _sessions w !! sid = Some session ->
  json request = Raise e ->
  exn_cls e <> JSONDecodeError ->
  messages request w
  = (Ok {| status := 500; body := JsonBody (VDict [("error", VStr (exn_str e))]) |},
     log_event EvRequestJson w).
Proof.
  intros Hq Hne Hsid Hjson Hcls.
  rewrite (messages_found request w sid session Hq Hne Hsid), Hjson.
  rewrite json_response_error_body. now destruct (exn_cls e).
Qed.

(** A POST to /messages for one session changes no other session
    object: not its queue, not its flag. *)
Theorem messages_handler_isolates_sessions (request : Request) (w w' : world)
        (r : res Response) (sid : string) (session : nat) :
  query_sessionId request = Some sid ->
  sid <> "" ->
  _sessions w !! sid = Some session ->
  messages request w = (r, w') ->
  forall other, other <> session -> heap w' !! other = heap w !! other.
Proof.
  intros Hq Hne Hsid Hrun other Hother.
  rewrite (messages_found request w sid session Hq Hne Hsid) in Hrun.
  assert (Hflag : forall h, h = heap w \/ h = alter set_initialized session (heap w) ->
                            h !! other = heap w !! other).
  { intros h [-> | ->]; [reflexivity | now rewrite lookup_alter_ne]. }
  destruct (json request) as [data|e].
  - destruct (handle session data (log_event EvRequestJson w)) as [[[env|]|e] w1] eqn:Hd;
      destruct (handle_state _ _ _ _ _ _ _ _ _ Hd) as (_ & Hh & _);
      cbn [heap log_event] in Hh.
    + injection Hrun as _ <-. destruct (truthy env); cbn [heap].
      * rewrite lookup_alter_ne by congruence. now apply Hflag.
      * now apply Hflag.
    + injection Hrun as _ <-. now apply Hflag.
    + rewrite json_response_error_body in Hrun. injection Hrun as _ <-. now apply Hflag.
  - rewrite json_response_error_body in Hrun. now injection Hrun as _ <-.
Qed.

End Handlers.

Section RestEndpoints.

Variable server_name : string.
Variable version : string.
Variable get_tools : list Tool.
Variable handle_tool_call : value -> value -> res value.

Abbreviation handle := (_handle_jsonrpc_message server_name version get_tools handle_tool_call).
Abbreviation execute := (execute_tool get_tools handle_tool_call).

(** The part of [execute_tool] after the lookup of the tool, and the
    handler it runs under. *)
Abbreviation call_and_wrap tool_name arguments :=
  (try_except
     (let* result := call_tool handle_tool_call tool_name arguments in
      let* content := lift (rest_content result) in
      json_response (VDict [("content", content)]) 200)
     (fun e => json_response (error_body (exn_str e)) 500)).

Lemma call_and_wrap_status (tool_name arguments : value) (w : world) :
  exists resp,
    call_and_wrap tool_name arguments w
    = (Ok resp, log_event (EvToolCall tool_name arguments) w)
    /\ (status resp = 200 \/ status resp = 500).
Proof.
  run. fold (log_event (EvToolCall tool_name arguments) w).
  destruct (handle_tool_call tool_name arguments) as [result|e]; [|eauto].
  destruct (rest_content result) as [content|e]; [|eauto].
  destruct (json_dumps (VDict [("content", content)]) None) as [text|e]; eauto.
Qed.

(** How [execute_tool] gets to the tool, or does not. *)
Lemma execute_cases (request : Request) (w : world) :
  let tool_name := match_info_tool_name request in
  (exists arguments w0,
      execute request w = call_and_wrap (VStr tool_name) arguments w0
      /\ heap w0 = heap w /\ _sessions w0 = _sessions w
      /\ tool_calls (log w0) = tool_calls (log w))
  \/ (exists resp w',
         execute request w = (Ok resp, w')
         /\ (status resp = 404 \/ status resp = 500)
         /\ heap w' = heap w /\ _sessions w' = _sessions w
         /\ tool_calls (log w') = tool_calls (log w)).
Proof.
  intros tool_name. unfold execute_tool. fold tool_name.
  assert (Hlog : tool_calls (log (log_event EvRequestJson w)) = tool_calls (log w)).
  { cbn [log log_event]. rewrite tool_calls_app. cbn. apply app_nil_r. }
  destruct (String.eqb (content_type request) "application/json").
  - destruct (json request) as [data|e] eqn:Hjson.
    + destruct (py_get data "arguments" (VDict [])) as [arguments|e] eqn:Hget.
      * destruct (tool_exists get_tools (VStr tool_name)) eqn:Hex.
        -- left. exists arguments, (log_event EvRequestJson w).
           split; [|auto]. run. now rewrite Hjson, Hget.
        -- right. eexists _, (log_event EvRequestJson w).
           split; [run; now rewrite Hjson, Hget|].
           split; [left; reflexivity | auto].
      * right. eexists _, (log_event EvRequestJson w).
        split; [run; now rewrite Hjson, Hget|].
        split; [right; reflexivity | auto].
    + right. eexists _, (log_event EvRequestJson w).
      split; [run; now rewrite Hjson|].
      split; [right; reflexivity | auto].
  - destruct (tool_exists get_tools (VStr tool_name)) eqn:Hex.
    + left. exists (VDict []), w. split; [|auto]. reflexivity.
    + right. eexists _, w. split; [reflexivity|].
      split; [left; reflexivity | auto].
Qed.

(** [POST /tools/{name}] answers every request: it never raises, its
    status is 200, 404 or 500, it leaves the sessions alone, and it
    calls a tool at most once, the one named in the path. *)
Theorem execute_tool_always_answers (request : Request) (w : world) :
  exists resp w',
    execute request w = (Ok resp, w')
    /\ (status resp = 200 \/ status resp = 404 \/ status resp = 500)
    /\ heap w' = heap w
    /\ _sessions w' = _sessions w
    /\ (tool_calls (log w') = tool_calls (log w)
        \/ exists arguments,
            tool_calls (log w')
            = (tool_calls (log w)
                 ++ [EvToolCall (VStr (match_info_tool_name request)) arguments])%list).
Proof.
  destruct (execute_cases request w)
    as [(arguments & w0 & Hrun & Hh & Ht & Hl) | (resp & w' & Hrun & Hs & Hh & Ht & Hl)].
  - destruct (call_and_wrap_status (VStr (match_info_tool_name request)) arguments w0)
      as (resp & Hcall & Hs).
    exists resp, (log_event (EvToolCall (VStr (match_info_tool_name request)) arguments) w0).
    split; [now rewrite Hrun|]. split; [tauto|]. split; [exact Hh|]. split; [exact Ht|].
    right. exists arguments. cbn [log log_event]. rewrite tool_calls_app, Hl. reflexivity.
  - exists resp, w'. split; [exact Hrun|]. split; [tauto|]. auto.
Qed.

(** When the tool raises, [POST /tools/{name}] answers 500 with
    [str(e)], after that one call. *)
Theorem execute_tool_failure_is_500 (request : Request) (w : world)
        (arguments : value) (e : exn) :
  let tool_name := VStr (match_info_tool_name request) in
  tool_exists get_tools tool_name = true ->
  rest_arguments request arguments ->
  handle_tool_call tool_name arguments = Raise e ->
  exists w',
    execute request w
    = (Ok {| status := 500; body := JsonBody (VDict [("error", VStr (exn_str e))]) |}, w')
    /\ tool_calls (log w') = (tool_calls (log w) ++ [EvToolCall tool_name arguments])%list.
Proof.
  intros tool_name Hex Hargs Hcall.
  assert (Hrun : exists w0,
             execute request w = call_and_wrap tool_name arguments w0
             /\ tool_calls (log w0) = tool_calls (log w)).
  { unfold execute_tool. fold tool_name.
    destruct Hargs as [(Hct & b & Hjson & Hb) | (Hct & ->)].
    - apply String.eqb_eq in Hct. rewrite Hct. exists (log_event EvRequestJson w). split.
      + run. rewrite Hjson. cbn [py_get]. cbn beta iota. rewrite Hb, Hex. reflexivity.
      + cbn [log log_event]. rewrite tool_calls_app. cbn. apply app_nil_r.
    - apply String.eqb_neq in Hct. rewrite Hct. exists w. split; [|reflexivity].
      unfold try_except, bind, ret. rewrite Hex. reflexivity. }
  destruct Hrun as (w0 & Hrun & Hw0).
  eexists. split.
  - rewrite Hrun. run. rewrite Hcall. reflexivity.
  - cbn [log]. rewrite tool_calls_app, Hw0. reflexivity.
Qed.

End RestEndpoints.

(** ** The SSE connection *)

Lemma sse_connect_spec (sid : string) (w : world) :
  exists session w',
    sse_connect sid w = (Ok session, w')
    /\ heap w !! session = None
    /\ heap w' !! session = Some {| session_id := sid; queue := []; initialized := false |}
    /\ _sessions w' !! sid = Some session
    /\ _sessions w' = <[sid := session]> (_sessions w)
    /\ (forall l s, heap w !! l = Some s -> heap w' !! l = Some s)
    /\ log w' = log w.
Proof.
  assert (Hfresh : heap w !! fresh (dom (heap w)) = None).
  { apply not_elem_of_dom. apply is_fresh. }
  eexists _, _. split; [reflexivity|]. cbn [heap _sessions log].
  split; [exact Hfresh|]. split; [apply lookup_insert_eq|].
  split; [apply lookup_insert_eq|]. split; [reflexivity|]. split; [|reflexivity].
  intros l s Hl. rewrite lookup_insert_ne; [exact Hl|]. congruence.
Qed.

(** [GET /sse] registers a new session under the id it was given:
    with an empty queue and the flag down, at a location no session
    object had; the entries of the table under other ids and the
    session objects there were are as before. *)
Theorem sse_connect_registers (sid : string) (w : world) :
  exists session w',
    sse_connect sid w = (Ok session, w')
    /\ heap w !! session = None
    /\ heap w' !! session = Some {| session_id := sid; queue := []; initialized := false |}
    /\ _sessions w' !! sid = Some session
    /\ (forall other_id, other_id <> sid -> _sessions w' !! other_id = _sessions w !! other_id)
    /\ (forall l s, heap w !! l = Some s -> heap w' !! l = Some s)
    /\ log w' = log w.
Proof.
  destruct (sse_connect_spec sid w)
    as (session & w' & Hconn & Hfresh & Hs & Hsid & Htable & Hheap & Hlog).
  exists session, w'. repeat (split; [assumption|]). split; [|split; assumption].
  intros other_id Hne. rewrite Htable. now rewrite lookup_insert_ne.
Qed.

Lemma sse_iteration_table (session : nat) (w w' : world) (r : res string) :
  sse_iteration session w = (r, w') -> _sessions w' = _sessions w.
Proof.
  unfold sse_iteration.
  destruct (queue <$> heap w !! session) as [[|message q]|]; try now intros [= <- <-].
  destruct (json_dumps message None); now intros [= <- <-].
Qed.

Lemma sse_loop_table (turns session : nat) :
  forall (w w' : world) (r : res (list string)),
    sse_loop turns session w = (r, w') -> _sessions w' = _sessions w.
Proof.
  induction turns as [|k IH]; intros w w' r; cbn [sse_loop].
  - now intros [= <- <-].
  - unfold bind, ret.
    destruct (sse_iteration session w) as [[chunk|e] w1] eqn:Hit;
      apply sse_iteration_table in Hit.
    + destruct (sse_loop k session w1) as [[chunks|e] w2] eqn:Hloop;
        apply IH in Hloop; intros [= <- <-]; congruence.
    + intros [= <- <-]. exact Hit.
Qed.



Lemma sse_exit_table (sid : string) (session turns : nat)
      (w w' : world) (r : res (list string)) :
  try_finally (sse_loop turns session) (sse_cleanup sid) w = (r, w') ->
  _sessions w' = delete sid (_sessions w).
Proof.
  unfold try_finally.
  destruct (sse_loop turns session w) as [r1 w1] eqn:Hloop.
  apply sse_loop_table in Hloop. unfold sse_cleanup.
  destruct (_sessions w1 !! sid) as [l|] eqn:Hsid; intros [= <- <-]; cbn [_sessions].
  - now rewrite Hloop.
  - rewrite <- Hloop. symmetry. now apply delete_id.
Qed.

(** However the loop ends, by the client going away or by
    [json.dumps] raising on a queued item, the [finally] clause has
    taken the session out of the table and left the other ids
    alone; taking it out again changes nothing. *)
Theorem sse_session_removed_on_exit (sid : string) (session turns : nat)
        (w w' : world) (r : res (list string)) :
  try_finally (sse_loop turns session) (sse_cleanup sid) w = (r, w') ->
  _sessions w' !! sid = None
  /\ (forall other_id, other_id <> sid -> _sessions w' !! other_id = _sessions w !! other_id)
  /\ sse_cleanup sid w' = (Ok tt, w').
Proof.
  intros Hexit. apply sse_exit_table in Hexit.
  split; [|split].
  - rewrite Hexit. apply lookup_delete_eq.
  - intros other_id Hne. rewrite Hexit. now rewrite lookup_delete_ne.
  - unfold sse_cleanup. rewrite Hexit, lookup_delete_eq. reflexivity.
Qed.

(** What [sse_handler] does when its stream does not open: it raises
    what [response.prepare] or the first write raised, with the
    session it has just registered still in the table. *)
Lemma sse_handler_not_opened (sid : string) (prepared written : res unit)
      (turns : nat) (w : world) (e : exn) :
  prepared = Raise e \/ (prepared = Ok tt /\ written = Raise e) ->
  exists session w',
    sse_connect sid w = (Ok session, w')
    /\ sse_handler sid prepared written turns w = (Raise e, w')
    /\ _sessions w' !! sid = Some session
    /\ heap w' !! session = Some {| session_id := sid; queue := []; initialized := false |}.
Proof.
  intros Hopen.
  destruct (sse_connect_spec sid w)
    as (session & w1 & Hconn & _ & Hs1 & Hsid & _ & _ & _).
  exists session, w1. split; [exact Hconn|]. split; [|auto].
  unfold sse_handler, bind, lift. rewrite Hconn.
  destruct Hopen as [-> | [-> ->]]; reflexivity.
Qed.


(** ** From the POST to the stream *)

Section EndToEnd.

Variable server_name : string.
Variable version : string.
Variable get_tools : list Tool.
Variable handle_tool_call : value -> value -> res value.

Abbreviation handle := (_handle_jsonrpc_message server_name version get_tools handle_tool_call).
Abbreviation messages := (messages_handler server_name version get_tools handle_tool_call).


(** A session id stops being served only when the [finally] clause
    of its handler has run: once the loop of [sse_handler] has been
    left, a POST for the id is answered with 404 and touches
    nothing; but when the handler raised before its [try], because
    the stream did not open, the id is still in the table, and a
    POST for it with a request object is dispatched and answered
    with 202. *)
Theorem session_gone_after_disconnect (sid : string) (session turns : nat)
        (request : Request) (w w' : world) (r : res (list string)) :
  query_sessionId request = Some sid ->
  (try_finally (sse_loop turns session) (sse_cleanup sid) w = (r, w') ->
   messages request w'
   = (Ok {| status := 404;
            body := JsonBody (VDict [("error", VStr "Session not found")]) |}, w'))
  /\ (forall prepared written e d,
        prepared = Raise e \/ (prepared = Ok tt /\ written = Raise e) ->
        sid <> "" ->
        json request = Ok (VDict d) ->
        exists registered w1 w2,
          sse_handler sid prepared written turns w = (Raise e, w1)
          /\ messages request w1
             = (Ok {| status := 202; body := TextBody "Accepted" |}, w2)
          /\ In (EvDispatch (VDict d)) (log w2)
          /\ _sessions w2 !! sid = Some registered).
Proof.
  intros Hq. split.
  - intros Hexit.
    assert (Hgone : _sessions w' !! sid = None).
    { rewrite (sse_exit_table sid session turns w w' r Hexit). apply lookup_delete_eq. }
    unfold messages_handler. rewrite Hq, Hgone.
    destruct (String.eqb sid ""); reflexivity.
  - intros prepared written e d Hopen Hne Hjson.
    destruct (sse_handler_not_opened sid prepared written turns w e Hopen)
      as (registered & w1 & _ & Hrun & Hsid & _).
    destruct (handle_returns server_name version get_tools handle_tool_call registered d
                (log_event EvRequestJson w1)) as (res & wd & Hd & _ & _).
    destruct (handle_state _ _ _ _ _ _ _ _ _ Hd) as (Ht & _ & l & Hl).
    assert (Hin : In (EvDispatch (VDict d)) (log wd)).
    { rewrite Hl. apply in_or_app. right. now left. }
    assert (Hpost := messages_found server_name version get_tools handle_tool_call
                       request w1 sid registered Hq Hne Hsid).
    rewrite Hjson, Hd in Hpost.
    exists registered, w1.
    destruct res as [env|]; eexists; (split; [exact Hrun|]);
      (split; [exact Hpost|]).
    + destruct (truthy env); cbn [log _sessions];
        (split; [exact Hin | now rewrite Ht]).
    + split; [exact Hin | now rewrite Ht].
Qed.

(** [GET /tools] and the [tools/list] method give the same array of
    tools, when the tools describe themselves with JSON data. *)
Theorem list_tools_matches_tools_list (request : Request) (session : nat)
        (d : list (string * value)) (w wr : world) :
  tools_are_json get_tools = true ->
  str_eq (dict_get d "method" VNone) "tools/list" = true ->
  exists entries w',
    list_tools get_tools request w
    = (Ok {| status := 200; body := JsonBody (VDict [("tools", VList entries)]) |}, w)
    /\ handle session (VDict d) wr
       = (Ok (Some (VDict [("jsonrpc", VStr "2.0"); ("id", dict_get d "id" VNone);
                           ("result", (VDict [("tools", VList entries)]))])), w')
    /\ length entries = length get_tools.
Proof.
  intros Htools Hm. exists (tools_data get_tools). eexists. split; [|split].
  - unfold list_tools, json_response, bind, lift, ret.
    destruct (encode_json None (VDict [("tools", VList (tools_data get_tools))]) 0%nat)
      as [text Htext].
    { cbn [is_json forallb snd]. now rewrite (tools_data_json _ Htools). }
    unfold json_dumps. now rewrite Htext.
  - rewrite handle_dict. apply str_eq_true in Hm. rewrite Hm. reflexivity.
  - unfold tools_data. apply length_map.
Qed.

(** When the result of the tool is a list that starts with an
    object with a [text] attribute but holds an item without [type]
    or [text], [POST /tools/{name}] answers 500 with the text of the
    [AttributeError]. *)
Theorem execute_tool_mixed_list_is_500 (request : Request) (w : world)
        (arguments : value) (items : list value) (e : exn) :
  let tool_name := VStr (match_info_tool_name request) in
  tool_exists get_tools tool_name = true ->
  rest_arguments request arguments ->
  handle_tool_call tool_name arguments = Ok (VList items) ->
  is_text_content_list (VList items) = true ->
  res_map item_block items = Raise e ->
  exists w',
    execute_tool get_tools handle_tool_call request w
    = (Ok {| status := 500; body := JsonBody (VDict [("error", VStr (exn_str e))]) |}, w').
Proof.
  intros tool_name Hex Hargs Hcall Hlist Hblocks.
  destruct (execute_known get_tools handle_tool_call request w arguments Hex Hargs)
    as [w0 Hrun].
  eexists. rewrite Hrun. run. fold tool_name. rewrite Hcall.
  destruct items as [|first rest]; [discriminate|].
  cbn [is_text_content_list] in Hlist.
  unfold rest_content. rewrite Hlist, Hblocks. reflexivity.
Qed.

End EndToEnd.

(** ** The choice of the transport *)

(** [start] runs the HTTP server only on a port that is not 0: the
    [http_port] it was given, or else the number in [PORT] when
    that variable is set and not empty; an [http_port] other than 0
    wins, and then [PORT] is not even read. *)
Theorem start_http_only_on_a_port (py_int : string -> res Z) (environ_PORT : option string)
        (http_port : option Z) :
  (forall p, http_port = Some p -> p <> 0 ->
             start py_int environ_PORT http_port = Ok (HttpServer p))
  /\ (forall p, start py_int environ_PORT http_port = Ok (HttpServer p) ->
                p <> 0
                /\ (http_port = Some p
                    \/ ((http_port = None \/ http_port = Some 0)
                        /\ exists text, environ_PORT = Some text /\ text <> ""
                                        /\ py_int text = Ok p)))
  /\ ((http_port = None \/ http_port = Some 0) ->
      (environ_PORT = None \/ environ_PORT = Some "") ->
      start py_int environ_PORT http_port = Ok StdioServer).
Proof.
  split; [|split].
  - intros p -> Hp. unfold start. apply Z.eqb_neq in Hp.
    rewrite Hp. cbn beta iota zeta. now rewrite Hp.
  - intros p. unfold start.
    assert (Henv : forall q,
               match
                 match environ_PORT with
                 | Some text => if String.eqb text "" then Ok None
                                else match py_int text with
                                     | Ok n => Ok (Some n)
                                     | Raise e => Raise e
                                     end
                 | None => Ok None
                 end
               with
               | Ok (Some p0) => if p0 =? 0 then Ok StdioServer else Ok (HttpServer p0)
               | Ok None => Ok StdioServer
               | Raise e => Raise e
               end = Ok (HttpServer q) ->
               q <> 0 /\ exists text, environ_PORT = Some text /\ text <> ""
                                      /\ py_int text = Ok q).
    { intros q. destruct environ_PORT as [text|]; [|discriminate].
      destruct (String.eqb text "") eqn:Ht; [discriminate|].
      destruct (py_int text) as [n|e] eqn:Hn; [|discriminate].
      destruct (n =? 0) eqn:Hz; [discriminate|].
      intros [= <-]. apply Z.eqb_neq in Hz. apply String.eqb_neq in Ht. eauto. }
    destruct http_port as [p0|].
    + destruct (p0 =? 0) eqn:Hz.
      * apply Z.eqb_eq in Hz. subst p0. intros H. apply Henv in H. destruct H; eauto.
      * rewrite Hz. intros [= <-]. apply Z.eqb_neq in Hz. auto.
    + intros H. apply Henv in H. destruct H; eauto.
  - intros Hp Henv. unfold start.
    destruct Hp as [-> | ->], Henv as [-> | ->]; reflexivity.
Qed.

(** ** The same on the small servers *)

Lemma tools_list_in_order_witness :
  exists entries,
    Demo.handle 0%nat (Demo.rpc 1 "tools/list" VNone) Demo.w0
    = (Ok (Some (VDict [("jsonrpc", VStr "2.0"); ("id", VInt 1);
                        ("result", (VDict [("tools", VList entries)]))])),
       log_event (EvDispatch (Demo.rpc 1 "tools/list" VNone)) Demo.w0)
    /\ length entries = 4%nat
    /\ forall i,
        entries !! i
        = (fun t => VDict [("name", VStr (name t)); ("description", description t);
                           ("inputSchema", inputSchema t)]) <$> Demo.tools !! i.
Proof.
  apply (tools_list_in_order "demo" "1.0" Demo.tools Demo.handle_tool_call 0%nat
           (Demo.rpc_fields 1 "tools/list" VNone) Demo.w0).
  reflexivity.
Defined.

Lemma initialize_marks_session_witness :
  exists env w',
    Demo.handle 0%nat (Demo.rpc 0 "initialize" (VDict [])) Demo.w0 = (Ok (Some env), w')
    /\ py_get env "result" VNone
       = Ok (VDict [("protocolVersion", VStr "2024-11-05");
                    ("capabilities", VDict [("tools", VDict []); ("resources", VDict [])]);
                    ("serverInfo", VDict [("name", VStr "demo"); ("version", VStr "1.0")])])
    /\ heap w' !! 0%nat = Some {| session_id := "s-1"; queue := []; initialized := true |}
    /\ (forall other, other <> 0%nat -> heap w' !! other = heap Demo.w0 !! other)
    /\ _sessions w' = _sessions Demo.w0
    /\ forall r w'',
        Demo.handle 0%nat (Demo.rpc 0 "initialize" (VDict [])) w' = (r, w'') ->
        heap w'' = heap w'.
Proof.
  apply (initialize_marks_session "demo" "1.0" Demo.tools Demo.handle_tool_call 0%nat
           (Demo.rpc_fields 0 "initialize" (VDict [])) Demo.w0 Demo.session0);
    reflexivity.
Defined.

Lemma only_initialize_touches_sessions_witness :
  heap (snd (Demo.handle 0%nat (Demo.rpc 3 "tools/call" (VDict [("name", VStr "boom")]))
               Demo.w0)) = heap Demo.w0
  /\ _sessions (snd (Demo.handle 0%nat
                       (Demo.rpc 3 "tools/call" (VDict [("name", VStr "boom")]))
                       Demo.w0)) = _sessions Demo.w0.
Proof.
  apply (only_initialize_touches_sessions "demo" "1.0" Demo.tools Demo.handle_tool_call
           0%nat (Demo.rpc 3 "tools/call" (VDict [("name", VStr "boom")])) Demo.w0 _
           (fst (Demo.handle 0%nat (Demo.rpc 3 "tools/call" (VDict [("name", VStr "boom")]))
                   Demo.w0))).
  - intros d [= <-]. reflexivity.
  - reflexivity.
Defined.

Lemma params_not_object_is_internal_error_witness :
  Demo.handle 0%nat (Demo.rpc 6 "tools/call" VNone) Demo.w0
  = (Ok (Some (VDict [("jsonrpc", VStr "2.0"); ("id", VInt 6);
                      ("error", VDict [("code", VInt (-32603));
                                       ("message", VStr "'NoneType' object has no attribute 'get'")])])),
     log_event (EvDispatch (Demo.rpc 6 "tools/call" VNone)) Demo.w0).
Proof.
  apply (params_not_object_is_internal_error "demo" "1.0" Demo.tools Demo.handle_tool_call
           0%nat (Demo.rpc_fields 6 "tools/call" VNone) Demo.w0);
    [reflexivity | discriminate].
Defined.

Lemma tools_call_invokes_once_witness :
  exists w',
    Demo.handle 0%nat (Demo.rpc 4 "tools/call" (VDict [("name", VStr "hello")])) Demo.w0
    = (Ok (Some (VDict [("jsonrpc", VStr "2.0"); ("id", VInt 4);
                        ("result", (VDict [("content", VList [(VDict [("type", VStr "text"); ("text", VStr "hello, world")])])]))])), w')
    /\ log w' = [EvDispatch (Demo.rpc 4 "tools/call" (VDict [("name", VStr "hello")]));
                 EvToolCall (VStr "hello") (VDict [])]
    /\ heap w' = heap Demo.w0.
Proof.
  apply (tools_call_invokes_once "demo" "1.0" Demo.tools Demo.handle_tool_call 0%nat
           (Demo.rpc_fields 4 "tools/call" (VDict [("name", VStr "hello")]))
           [("name", VStr "hello")] Demo.w0 (VStr "hello, world") "hello, world");
    reflexivity.
Defined.

Lemma tools_call_unserializable_result_witness :
  exists w',
    Demo.handle 0%nat (Demo.rpc 4 "tools/call" (VDict [("name", VStr "mcp")])) Demo.w0
    = (Ok (Some (VDict [("jsonrpc", VStr "2.0"); ("id", VInt 4);
                        ("error", VDict [("code", VInt (-32603));
                                         ("message", VStr "Object of type TextContent is not JSON serializable")])])), w')
    /\ log w' = [EvDispatch (Demo.rpc 4 "tools/call" (VDict [("name", VStr "mcp")]));
                 EvToolCall (VStr "mcp") (VDict [])].
Proof.
  destruct (tools_call_unserializable_result "demo" "1.0" Demo.tools Demo.handle_tool_call
              0%nat (Demo.rpc_fields 4 "tools/call" (VDict [("name", VStr "mcp")]))
              [("name", VStr "mcp")] Demo.w0 (VList [Demo.text_content "hi"])
              (not_serializable (Demo.text_content "hi"))
              eq_refl eq_refl eq_refl eq_refl eq_refl) as (w' & Hrun & Hlog & _).
  exists w'. split; [exact Hrun | exact Hlog].
Defined.

Lemma envelope_is_serializable_witness :
  let env := (VDict [("jsonrpc", VStr "2.0"); ("id", VInt 1);
                     ("result", (VDict [("tools", VList (tools_data Demo.tools))]))]) in
  is_json env = true /\ exists text, json_dumps env None = Ok text.
Proof.
  apply (envelope_is_serializable "demo" "1.0" Demo.tools Demo.handle_tool_call 0%nat
           (Demo.rpc_fields 1 "tools/list" (VDict [])) Demo.w0
           (log_event (EvDispatch (Demo.rpc 1 "tools/list" (VDict []))) Demo.w0));
    reflexivity.
Defined.

Lemma non_object_body_is_500_witness :
  exists w',
    Demo.messages (Demo.post_message (Some "s-1") (Ok (VList [Demo.rpc 1 "tools/list" VNone])))
                  Demo.w0
    = (Ok {| status := 500;
             body := JsonBody (VDict [("error", VStr "'list' object has no attribute 'get'")]) |}, w')
    /\ heap w' = heap Demo.w0
    /\ log w' = [EvRequestJson; EvDispatch (VList [Demo.rpc 1 "tools/list" VNone])].
Proof.
  apply (non_object_body_is_500 "demo" "1.0" Demo.tools Demo.handle_tool_call
           (Demo.post_message (Some "s-1") (Ok (VList [Demo.rpc 1 "tools/list" VNone])))
           Demo.w0 "s-1" 0%nat (VList [Demo.rpc 1 "tools/list" VNone]));
    [reflexivity | discriminate | reflexivity | reflexivity | discriminate].
Defined.

Lemma body_read_error_is_500_witness :
  let e := {| exn_cls := OtherException "UnicodeDecodeError";
              exn_str := "'utf-8' codec can't decode byte 0xff in position 0: invalid start byte" |} in
  Demo.messages (Demo.post_message (Some "s-1") (Raise e)) Demo.w0
  = (Ok {| status := 500; body := JsonBody (VDict [("error", VStr (exn_str e))]) |},
     log_event EvRequestJson Demo.w0).
Proof.
  intros e.
  apply (body_read_error_is_500 "demo" "1.0" Demo.tools Demo.handle_tool_call
           (Demo.post_message (Some "s-1") (Raise e)) Demo.w0 "s-1" 0%nat e);
    [reflexivity | discriminate | reflexivity | reflexivity | discriminate].
Defined.

Lemma messages_handler_isolates_sessions_witness :
  let request := Demo.post_message (Some "s-2") (Ok (Demo.rpc 0 "initialize" (VDict []))) in
  heap (snd (messages_handler "demo" "1.0" Demo2.tools Demo2.handle_tool_call request Demo2.w0))
       !! 0%nat = Some Demo2.busy.
Proof.
  intros request.
  apply (messages_handler_isolates_sessions "demo" "1.0" Demo2.tools Demo2.handle_tool_call
           request Demo2.w0 _
           (fst (messages_handler "demo" "1.0" Demo2.tools Demo2.handle_tool_call request
                   Demo2.w0)) "s-2" 1%nat);
    [reflexivity | discriminate | reflexivity | reflexivity | discriminate].
Defined.

Lemma execute_tool_failure_is_500_witness :
  exists w',
    Demo.execute (Demo.post_tool "boom" "text/plain" (Raise Demo.bad_json)) Demo.w0
    = (Ok {| status := 500; body := JsonBody (VDict [("error", VStr "backend down")]) |}, w')
    /\ tool_calls (log w') = [EvToolCall (VStr "boom") (VDict [])].
Proof.
  apply (execute_tool_failure_is_500 Demo.tools Demo.handle_tool_call
           (Demo.post_tool "boom" "text/plain" (Raise Demo.bad_json)) Demo.w0
           (VDict []) Demo.failed);
    [reflexivity | right; split; [discriminate | reflexivity] | reflexivity].
Defined.

Lemma sse_connect_registers_witness :
  exists session w',
    sse_connect "s-3" Demo2.w0 = (Ok session, w')
    /\ _sessions w' !! "s-3" = Some session
    /\ _sessions w' !! "s-1" = Some 0%nat
    /\ heap w' !! 0%nat = Some Demo2.busy.
Proof.
  destruct (sse_connect_registers "s-3" Demo2.w0)
    as (session & w' & Hconn & _ & _ & Hsid & Hother & Hheap & _).
  exists session, w'. split; [exact Hconn|]. split; [exact Hsid|]. split.
  - rewrite Hother by discriminate. reflexivity.
  - apply Hheap. reflexivity.
Defined.


Lemma sse_session_removed_on_exit_witness :
  let w' := snd (try_finally (sse_loop 1 0%nat) (sse_cleanup "s-1") Demo2.w0) in
  _sessions w' !! "s-1" = None
  /\ (forall other_id, other_id <> "s-1" ->
        _sessions w' !! other_id = _sessions Demo2.w0 !! other_id)
  /\ sse_cleanup "s-1" w' = (Ok tt, w').
Proof.
  intros w'.
  apply (sse_session_removed_on_exit "s-1" 0%nat 1%nat Demo2.w0 w'
           (fst (try_finally (sse_loop 1 0%nat) (sse_cleanup "s-1") Demo2.w0))).
  reflexivity.
Defined.


Lemma session_gone_after_disconnect_witness :
  let w' := snd (try_finally (sse_loop 1 0%nat) (sse_cleanup "s-1") Demo2.w0) in
  let request := Demo.post_message (Some "s-1") (Ok (Demo.rpc 1 "tools/list" (VDict []))) in
  let reset := {| exn_cls := OtherException "ConnectionResetError";
                  exn_str := "Cannot write to closing transport" |} in
  messages_handler "demo" "1.0" Demo2.tools Demo2.handle_tool_call request w'
  = (Ok {| status := 404;
           body := JsonBody (VDict [("error", VStr "Session not found")]) |}, w')
  /\ exists registered w1 w2,
      sse_handler "s-1" (Ok tt) (Raise reset) 1 Demo2.w0 = (Raise reset, w1)
      /\ messages_handler "demo" "1.0" Demo2.tools Demo2.handle_tool_call request w1
         = (Ok {| status := 202; body := TextBody "Accepted" |}, w2)
      /\ In (EvDispatch (Demo.rpc 1 "tools/list" (VDict []))) (log w2)
      /\ _sessions w2 !! "s-1" = Some registered.
Proof.
  intros w' request reset.
  destruct (session_gone_after_disconnect "demo" "1.0" Demo2.tools Demo2.handle_tool_call
              "s-1" 0%nat 1%nat request Demo2.w0 w'
              (fst (try_finally (sse_loop 1 0%nat) (sse_cleanup "s-1") Demo2.w0)) eq_refl)
    as [Hgone Hleak].
  split; [apply Hgone; reflexivity|].
  apply (Hleak (Ok tt) (Raise reset) reset (Demo.rpc_fields 1 "tools/list" (VDict [])));
    [right; split; reflexivity | discriminate | reflexivity].
Defined.

Lemma list_tools_matches_tools_list_witness :
  exists entries w',
    list_tools Demo.tools (Demo.post_tool "" "" (Raise Demo.bad_json)) Demo.w0
    = (Ok {| status := 200; body := JsonBody (VDict [("tools", VList entries)]) |}, Demo.w0)
    /\ Demo.handle 0%nat (Demo.rpc 1 "tools/list" (VDict [])) Demo.w0
       = (Ok (Some (VDict [("jsonrpc", VStr "2.0"); ("id", VInt 1);
                           ("result", (VDict [("tools", VList entries)]))])), w')
    /\ length entries = 4%nat.
Proof.
  apply (list_tools_matches_tools_list "demo" "1.0" Demo.tools Demo.handle_tool_call
           (Demo.post_tool "" "" (Raise Demo.bad_json)) 0%nat
           (Demo.rpc_fields 1 "tools/list" (VDict [])) Demo.w0 Demo.w0);
    reflexivity.
Defined.

Lemma execute_tool_mixed_list_is_500_witness :
  exists w',
    execute_tool Demo2.tools Demo2.handle_tool_call
                 (Demo.post_tool "mixed" "text/plain" (Raise Demo.bad_json)) Demo2.w0
    = (Ok {| status := 500;
             body := JsonBody (VDict [("error", VStr "'str' object has no attribute 'type'")]) |}, w').
Proof.
  apply (execute_tool_mixed_list_is_500 Demo2.tools Demo2.handle_tool_call
           (Demo.post_tool "mixed" "text/plain" (Raise Demo.bad_json)) Demo2.w0 (VDict [])
           [Demo.text_content "a"; VStr "b"] (no_attribute (VStr "b") "type"));
    [reflexivity | right; split; [discriminate | reflexivity]
     | reflexivity | reflexivity | reflexivity].
Defined.

Lemma start_http_only_on_a_port_witness :
  let py_int := fun text : string =>
                  if String.eqb text "0" then Ok 0
                  else if String.eqb text "3000" then Ok 3000
                  else Raise {| exn_cls := OtherException "ValueError";
                                exn_str := "invalid literal for int() with base 10" |} in
  start py_int (Some "not a number") (Some 8080) = Ok (HttpServer 8080)
  /\ start py_int (Some "") (Some 0) = Ok StdioServer.
Proof.
  intros py_int.
  destruct (start_http_only_on_a_port py_int (Some "not a number") (Some 8080))
    as (Hwins & _ & _).
  destruct (start_http_only_on_a_port py_int (Some "") (Some 0)) as (_ & _ & Hstdio).
  split.
  - apply Hwins; [reflexivity | discriminate].
  - apply Hstdio; [right; reflexivity | right; reflexivity].
Defined.

